(** * The request/reply conformance suite and its default container setup

    A shallow embedding of [tck/framework/request_reply.go]: the suite
    [Request_reply] with its five verification procedures, and the default
    setup strategy [setUpContainerUsingPortEnvVar]. *)

From Stdlib Require Import ZArith Lia Ascii String.
From stdpp Require Import base decidable option list strings gmap pretty.

Local Open Scope string_scope.
Local Open Scope list_scope.
Local Open Scope Z_scope.

(** ** Go values used by the file *)

(** A Go [error] value, identified by the text its [Error()] method gives. *)
Inductive error : Type := Err (msg : string).

Definition Error (e : error) : string := match e with Err m => m end.

(** A Go [(T, error)] return pair: the value when the error is nil. *)
Inductive result (A : Type) : Type :=
| Ok (a : A)
| Fail (e : error).
Arguments Ok {A} a.
Arguments Fail {A} e.

(** [fmt.Sprintf] with the verb [%d] on an int. *)
Definition fmt_d (n : Z) : string := pretty n.

(** The double quote character, for string literals that contain one. *)
Definition dq : string := String (Ascii.ascii_of_nat 34) EmptyString.

Module Http.

(** [http.Header]: a map from canonical header names to their values. *)
Record Request : Type := {
  Method : string;
  URL : string;
  ReqHeader : gmap string (list string);
  ReqBody : string;
}.

(** [http.Response], with [Body] standing for what [ioutil.ReadAll] yields
    on the response's body stream. *)
Record Response : Type := {
  StatusCode : Z;
  Header : gmap string (list string);
  Body : result string;
}.

(** [req.Header.Set(key, value)]: replaces the values of [key] by the single
    value.  The keys the suite sets are already in canonical form. *)
Definition Header_Set (key value : string) (req : Request) : Request :=
  {| Method := Method req; URL := URL req;
     ReqHeader := <[ key := [value] ]> (ReqHeader req);
     ReqBody := ReqBody req |}.

(** [h[key]]: indexing a Go map yields the zero value (a nil slice) on a
    missing key. *)
Definition Header_index (h : gmap string (list string)) (key : string)
  : list string := default [] (h !! key).

(** [http.CanonicalHeaderKey("Content-Type")]. *)
Definition CanonicalHeaderKey_ContentType : string := "Content-Type".

Definition StatusOK : Z := 200.
Definition StatusNotAcceptable : Z := 406.
Definition StatusUnsupportedMediaType : Z := 415.

(** The value handed to [panic]: an [error] or a string. *)
Inductive PanicValue : Type :=
| PanicErr (e : error)
| PanicStr (s : string).

(** A verification procedure is a program that exchanges requests with the
    candidate service through [http.DefaultClient.Do] and either returns or
    panics. *)
Inductive Proc (A : Type) : Type :=
| Return (a : A)
| Panic (v : PanicValue)
| ClientDo (req : Request) (k : result Response -> Proc A).
Arguments Return {A} a.
Arguments Panic {A} v.
Arguments ClientDo {A} req k.

Fixpoint bind {A B} (p : Proc A) (f : A -> Proc B) : Proc B :=
  match p with
  | Return a => f a
  | Panic v => Panic v
  | ClientDo req k => ClientDo req (fun r => bind (k r) f)
  end.

Declare Scope proc_scope.
Delimit Scope proc_scope with proc.
Notation "x <- c1 ;; c2" := (bind c1 (fun x => c2))
  (at level 100, c1 at next level, right associativity) : proc_scope.
Notation "c1 ;; c2" := (bind c1 (fun _ => c2))
  (at level 100, right associativity) : proc_scope.

(** [v, err := f(...); if err != nil { panic(err) }]. *)
Definition orPanic {A} (r : result A) : Proc A :=
  match r with
  | Ok a => Return a
  | Fail e => Panic (PanicErr e)
  end.

Definition Do (req : Request) : Proc (result Response) := ClientDo req Return.

(** How the run of a verification procedure ends. *)
Inductive Outcome (A : Type) : Type :=
| Completed (a : A)
| Panicked (v : PanicValue).
Arguments Completed {A} a.
Arguments Panicked {A} v.

(** Running a procedure against a candidate service: the service is a state
    machine that answers each request with a response or a transport error. *)
Section Run.
Context {S : Type} (serve : Request -> S -> result Response * S).

Fixpoint run {A} (p : Proc A) (s : S) : Outcome A * S :=
  match p with
  | Return a => (Completed a, s)
  | Panic v => (Panicked v, s)
  | ClientDo req k => let '(r, s') := serve req s in run (k r) s'
  end.

(** The requests the service received, in order. *)
Fixpoint sent {A} (p : Proc A) (s : S) : list Request :=
  match p with
  | Return _ | Panic _ => []
  | ClientDo req k => let '(r, s') := serve req s in req :: sent (k r) s'
  end.
End Run.

End Http.

(** ** The container engine and the host, as the setup strategy uses them *)

Module Docker.

(** [time.Duration]: a signed 64-bit count of nanoseconds. *)
Definition Duration : Type := Z.
Definition Millisecond : Duration := 1000000.

(** Two's-complement wrap-around of a signed 64-bit integer. *)
Definition wrap64 (z : Z) : Z := (z + 2 ^ 63) mod 2 ^ 64 - 2 ^ 63.

(** [time.Duration(math.Pow(2, float64(i)))]: a power of two is exact in a
    float64 and its conversion to int64 is exact for [0 <= i <= 62]; the
    probe loop only uses [0 <= i < 10]. *)
Definition Pow2 (i : Z) : Duration := 2 ^ i.

(** [nat.PortBinding]; [nat.Port] is a string, [nat.PortMap] a map from
    ports to bindings and [nat.PortSet] a set of ports. *)
Record PortBinding : Type := { HostIP : string; HostPort : string }.

(** The fields of [container.Config] and [container.HostConfig] that the
    setup strategy fills in; every other field keeps its zero value. *)
Record Config : Type := {
  Image : string;
  ExposedPorts : gset string;
  Env : list string;
}.

Record HostConfig : Type := { PortBindings : gmap string (list PortBinding) }.

(** Modelled from the spec: the [Container] and [Runner] type declarations
    are in another file of the package.  A [Container] is the Instance
    Handle (backing identifier and allocated host port); of the [Runner]
    only the engine client is used, through the engine capability
    pull / create / start.  A nil [error] is [None]. *)
Record Container : Type := { id : string; hostPort : Z }.

Record DockerClient : Type := {
  ImagePull : string -> option error;
  ContainerCreate : Config -> HostConfig -> result string;
  ContainerStart : string -> option error;
}.

Record Runner : Type := { dockerClient : DockerClient }.

(** The host the kit runs on.  [getFreePort] is a helper of the package
    that is defined in another file; [Dial n network address] is the answer
    of [net.Dial] to the connection attempt that [n] attempts preceded. *)
Record Host : Type := {
  getFreePort : result Z;
  Dial : nat -> string -> string -> option error;
}.

(** What the setup strategy does to the engine and the host, in order.
    Stopping and removing a container are part of the engine capability
    but no code of this file performs them. *)
Inductive Event : Type :=
| ImagePulled (image : string) (err : option error)
| PortAllocated (r : result Z)
| ContainerCreated (cfg : Config) (hc : HostConfig) (r : result string)
| ContainerStarted (cid : string) (err : option error)
| ContainerStopped (cid : string)
| ContainerRemoved (cid : string)
| Dialed (network address : string) (err : option error)
| Slept (d : Duration).

Definition is_dial (e : Event) : bool :=
  match e with Dialed _ _ _ => true | _ => false end.

(** The number of connection attempts made so far. *)
Definition dial_count (tr : list Event) : nat :=
  length (List.filter is_dial tr).

(** The loop [for i := 0; i < 10; i = i + 1] of the setup strategy, with
    [err] the variable the loop assigns and the test after it reads.  The
    fuel bounds the number of times the loop condition is evaluated. *)
Fixpoint dial_loop (h : Host) (hostPort : Z) (fuel : nat) (i : Z)
    (err : option error) (tr : list Event)
  : option (option error * list Event) :=
  match fuel with
  | O => None
  | S fuel' =>
    if i <? 10 then
      let address := "localhost:" +:+ fmt_d hostPort in
      let err := Dial h (dial_count tr) "tcp" address in
      let tr := tr ++ [Dialed "tcp" address err] in
      match err with
      | None => Some (err, tr)
      | Some _ =>
        let tr := tr ++ [Slept (wrap64 (10 * Millisecond * Pow2 i))] in
        dial_loop h hostPort fuel' (i + 1) err tr
      end
    else Some (err, tr)
  end.

(** Eleven evaluations of the loop condition are all the loop can make. *)
Definition loop_fuel : nat := 11.

Definition setUpContainerUsingPortEnvVar (h : Host) (image : string)
    (r : Runner) : option (result Container * list Event) :=
  let tr := [] in
  let err := ImagePull (dockerClient r) image in
  let tr := tr ++ [ImagePulled image err] in
  match err with
  | Some e => Some (Fail e, tr)
  | None =>
    let p := getFreePort h in
    let tr := tr ++ [PortAllocated p] in
    match p with
    | Fail e => Some (Fail e, tr)
    | Ok hostPort =>
      let hostBinding :=
        {| HostIP := "0.0.0.0"; HostPort := fmt_d hostPort |} in
      let containerPort := "4321" in
      (* the test of [err] that follows in the source reads the nil error
         of [getFreePort] and never returns *)
      let portBinding : gmap string (list PortBinding) :=
        {[ containerPort := [hostBinding] ]} in
      let cfg :=
        {| Image := image; ExposedPorts := {[ containerPort ]};
           Env := ["PORT=4321"] |} in
      let hc := {| PortBindings := portBinding |} in
      let cont := ContainerCreate (dockerClient r) cfg hc in
      let tr := tr ++ [ContainerCreated cfg hc cont] in
      match cont with
      | Fail e => Some (Fail e, tr)
      | Ok cont_ID =>
        let err := ContainerStart (dockerClient r) cont_ID in
        let tr := tr ++ [ContainerStarted cont_ID err] in
        match err with
        | Some e => Some (Fail e, tr)
        | None =>
          match dial_loop h hostPort loop_fuel 0 err tr with
          | None => None
          | Some (Some e, tr) => Some (Fail e, tr)
          | Some (None, tr) =>
            let tr := tr ++ [Slept (1000 * Millisecond)] in
            Some (Ok {| id := cont_ID; hostPort := hostPort |}, tr)
          end
        end
      end
    end
  end.

(** The effect of one event on the set of running containers: a successful
    start adds the container, a stop or a removal takes it out. *)
Definition running_step (acc : list string) (e : Event) : list string :=
  match e with
  | ContainerStarted cid None => acc ++ [cid]
  | ContainerStopped cid | ContainerRemoved cid =>
      List.filter (fun c => negb (String.eqb c cid)) acc
  | _ => acc
  end.

(** The containers running after a trace, whose first event is the oldest:
    those that were started and neither stopped nor removed since. *)
Definition running (tr : list Event) : list string :=
  fold_left running_step tr [].

End Docker.

(** ** The suite *)

(** Modelled from the spec: the [Testcase] and [Suite] type declarations are
    in another file of the package; the fields are those the literal
    [Request_reply] (and its commented-out first case) sets: a name, a
    description, the mandatory-vs-optional flag, the target image, the
    optional custom setup and teardown strategies, and the verification
    procedure, a function of the reachable port.  A nil function field is
    [None]; [Optional] left out is [false]. *)
Record Testcase : Type := {
  Name : string;
  Description : string;
  Optional : bool;
  Image : string;
  SetUpContainer :
    option (Docker.Host -> string -> Docker.Runner ->
            option (result Docker.Container * list Docker.Event));
  TearDownContainer :
    option (Docker.Container -> Docker.Runner ->
            list Docker.Event -> list Docker.Event);
  T : Z -> Http.Proc unit;
}.

Module Suite.
Record t : Type := {
  Name : string;
  Description : string;
  Port : Z;
  Cases : list Testcase;
}.
End Suite.

Section Request_reply.
Import Http.
Local Open Scope proc_scope.

(** [http.NewRequest(method, url, body)] and [mime.ParseMediaType(v)] of
    Go's standard library.  [NewRequest] fails on a method that is not a
    token and on a URL that does not parse; [ParseMediaType] yields the
    lower-cased media type and the parameters. *)
Variable NewRequest : string -> string -> string -> result Request.
Variable ParseMediaType : string -> result (string * gmap string string).

(** [http.Post(url, contentType, body)]: a POST request with the given
    Content-Type, sent through the default client. *)
Definition Post (url contentType body : string) : Proc (result Response) :=
  match NewRequest "POST" url body with
  | Fail e => Return (Fail e)
  | Ok req => Do (Header_Set "Content-Type" contentType req)
  end.

(** [fmt.Sprintf("http://localhost:%d" + path, port)]. *)
Definition localhost (port : Z) (path : string) : string :=
  "http://localhost:" +:+ fmt_d port +:+ path.

Definition only_on_root : string :=
  "The function function should only be exposed on /".

Definition T_rr_0001 (port : Z) : Proc unit :=
  r <- Post (localhost port "/bogus") "text/plain" "hello" ;;
  response <- orPanic r ;;
  result <- orPanic (Body response) ;;
  (if String.eqb "HELLO" result then Panic (PanicStr only_on_root)
   else Return tt) ;;
  req <- orPanic (NewRequest "PUT" (localhost port "/") "hello") ;;
  let req := Header_Set "Content-Type" "text/plain" req in
  r <- Do req ;;
  response <- orPanic r ;;
  result <- orPanic (Body response) ;;
  if String.eqb "HELLO" result then Panic (PanicStr only_on_root)
  else Return tt.

(** The checks rr-0002 makes on a response once its body is read; the two
    halves of the procedure differ in the expected body and media type and
    in the wording of the body diagnostic. *)
Definition check_negotiated (expected_body expected_type body_diag : string)
    (response : Response) (result : string) : Proc unit :=
  if negb (StatusCode response =? StatusOK) then
    Panic (PanicStr ("Expected http status 200, got "
                     +:+ fmt_d (StatusCode response)))
  else if negb (String.eqb expected_body result) then
    Panic (PanicStr (body_diag +:+ result))
  else
    let hs := Header_index (Header response) CanonicalHeaderKey_ContentType in
    match hs with
    | [hs0] =>
      match ParseMediaType hs0 with
      | Fail err =>
        Panic (PanicStr ("Error parsing content-type: " +:+ Error err))
      | Ok (mediaType, _) =>
        if negb (String.eqb mediaType expected_type) then
          Panic (PanicStr ("Expected response Content-Type to be set to "
                           +:+ expected_type +:+ ", got " +:+ mediaType))
        else Return tt
      end
    | _ => Panic (PanicStr "No Content-Type set on response")
    end.

Definition T_rr_0002 (port : Z) : Proc unit :=
  req <- orPanic (NewRequest "POST" (localhost port "/") "hello") ;;
  let req := Header_Set "Content-Type" "text/plain" req in
  let req := Header_Set "Accept" "text/plain" req in
  r <- Do req ;;
  response <- orPanic r ;;
  result <- orPanic (Body response) ;;
  check_negotiated "HELLO" "text/plain"
    "Expected result as text/plain HELLO, got " response result ;;
  req <- orPanic (NewRequest "POST" (localhost port "/") "hello") ;;
  let req := Header_Set "Content-Type" "text/plain" req in
  let req := Header_Set "Accept" "application/json" req in
  r <- Do req ;;
  response <- orPanic r ;;
  result <- orPanic (Body response) ;;
  check_negotiated (dq +:+ "HELLO" +:+ dq) "application/json"
    ("Expected result as application/json " +:+ dq +:+ "HELLO" +:+ dq
     +:+ ", got ")
    response result.

Definition T_rr_0003 (port : Z) : Proc unit :=
  req <- orPanic (NewRequest "POST" (localhost port "/") "hello") ;;
  let req := Header_Set "Content-Type" "bogus/content-type" req in
  let req := Header_Set "Accept" "text/plain" req in
  r <- Do req ;;
  response <- orPanic r ;;
  if negb (StatusCode response =? StatusUnsupportedMediaType) then
    Panic (PanicStr ("Expected 415 http code, got "
                     +:+ fmt_d (StatusCode response)))
  else Return tt.

Definition T_rr_0004 (port : Z) : Proc unit :=
  (* malformed json *)
  req <- orPanic (NewRequest "POST" (localhost port "/") (dq +:+ "hello")) ;;
  let req := Header_Set "Content-Type" "application/json" req in
  let req := Header_Set "Accept" "text/plain" req in
  r <- Do req ;;
  response <- orPanic r ;;
  if StatusCode response <? 500 then
    Panic (PanicStr ("Expected 5xx http code, got "
                     +:+ fmt_d (StatusCode response)))
  else Return tt.

Definition T_rr_0005 (port : Z) : Proc unit :=
  req <- orPanic (NewRequest "POST" (localhost port "/") "hello") ;;
  let req := Header_Set "Content-Type" "text/plain" req in
  let req := Header_Set "Accept" "not/gonna-happen" req in
  r <- Do req ;;
  response <- orPanic r ;;
  if negb (StatusCode response =? StatusNotAcceptable) then
    Panic (PanicStr ("Expected 406 http code, got "
                     +:+ fmt_d (StatusCode response)))
  else Return tt.

Definition Request_reply : Suite.t :=
  {| Suite.Name := "rr";
     Suite.Description := "Request / Reply Interaction";
     Suite.Port := 8080;
     Suite.Cases := [
       {| Name := "rr-0001";
          Description :=
            "MUST NOT reply on paths other than / or methods other than POST";
          Optional := false;
          Image := "upper";
          SetUpContainer := None; TearDownContainer := None;
          T := T_rr_0001 |};
       {| Name := "rr-0002";
          Description := "MUST honor the Accept header";
          Optional := false;
          Image := "upper";
          SetUpContainer := None; TearDownContainer := None;
          T := T_rr_0002 |};
       {| Name := "rr-0003";
          Description := "SHOULD reply with 415 on unrecognized Content-Type";
          Optional := true;
          Image := "upper";
          SetUpContainer := None; TearDownContainer := None;
          T := T_rr_0003 |};
       {| Name := "rr-0004";
          Description := "MUST reply with 5xx on unmarshalling error";
          Optional := false;
          Image := "upper";
          SetUpContainer := None; TearDownContainer := None;
          T := T_rr_0004 |};
       {| Name := "rr-0005";
          Description := "SHOULD reply with 406 on inability to marshall back";
          Optional := true;
          Image := "upper";
          SetUpContainer := None; TearDownContainer := None;
          T := T_rr_0005 |}
     ] |}.
End Request_reply.

(** ** The suite report *)

Module Report.

(** Modelled from the spec: the status of a Case Outcome (the Runner and the
    Result Aggregator are in another file of the package): Passed, Failed
    or Skipped. *)
Inductive Status : Type := Passed | Failed | Skipped.

(** Modelled from the spec: the Case Outcome the Runner records, which is
    not in this file: the case name, the status, an optional diagnostic and
    the optional flag carried over from the descriptor. *)
Record CaseOutcome : Type := {
  name : string;
  status : Status;
  diagnostic : option string;
  optional : bool;
}.

Definition is_Failed (st : Status) : bool :=
  match st with Failed => true | _ => false end.

(** Modelled from the spec: the Runner's step (e), which is not in this
    file: the outcome appended for a descriptor is tagged with the
    descriptor's mandatory/optional flag. *)
Definition outcome_of (tc : Testcase) (st : Status) (diag : option string)
  : CaseOutcome :=
  {| name := Name tc; status := st; diagnostic := diag;
     optional := Optional tc |}.

Definition mandatory_failure (o : CaseOutcome) : bool :=
  negb (optional o) && is_Failed (status o).

(** Modelled from the spec: the derived overall status of a Suite Report,
    computed by the Result Aggregator, which is not in this file: Failed if
    any mandatory Case Outcome is Failed, else Passed. *)
Definition overall (outcomes : list CaseOutcome) : Status :=
  if existsb mandatory_failure outcomes then Failed else Passed.

(** Modelled from the spec: the Runner's report, which is not in this file:
    one outcome per declared case, in declaration order; [verdict n] is the
    status the case named [n] ended with. *)
Definition report (s : Suite.t) (verdict : string -> Status)
  : list CaseOutcome :=
  map (fun tc => outcome_of tc (verdict (Name tc)) None) (Suite.Cases s).

End Report.

(** ** Closed forms and properties of the probe loop's trace *)

Module Probe.
Import Docker.

(** The delay after the attempt numbered [n] from zero: the base delay of
    ten milliseconds, doubled [n] times. *)
Definition backoff (n : nat) : Duration := 10 * Millisecond * 2 ^ Z.of_nat n.

Definition address (hostPort : Z) : string := "localhost:" +:+ fmt_d hostPort.

Definition is_nil (err : option error) : bool :=
  match err with None => true | Some _ => false end.

(** Whether the attempt numbered [n], made when [k0] attempts preceded the
    loop, connects. *)
Definition ready (h : Host) (hostPort : Z) (k0 n : nat) : bool :=
  is_nil (Dial h (k0 + n) "tcp" (address hostPort)).

(** A failed attempt and the sleep that follows it. *)
Definition failed_attempt (h : Host) (hostPort : Z) (k0 n : nat)
  : list Event :=
  [Dialed "tcp" (address hostPort) (Dial h (k0 + n) "tcp" (address hostPort));
   Slept (backoff n)].

(** What the loop leaves when it is entered with index [i] and [m]
    iterations to go: the error variable and the events it adds. *)
Definition loop_outcome (h : Host) (hostPort : Z) (k0 i m : nat)
    (err : option error) : option error * list Event :=
  match find (ready h hostPort k0) (seq i m) with
  | Some n =>
      (None,
       flat_map (failed_attempt h hostPort k0) (seq i (n - i))
         ++ [Dialed "tcp" (address hostPort) None])
  | None =>
      (match m with
       | O => err
       | S _ => Dial h (k0 + 9) "tcp" (address hostPort)
       end,
       flat_map (failed_attempt h hostPort k0) (seq i m))
  end.

Definition dial_succeeded (e : Event) : bool :=
  match e with Dialed _ _ None => true | _ => false end.

Definition is_sleep (e : Event) : bool :=
  match e with Slept _ => true | _ => false end.

(** Every sleep of the trace is directly followed by a connection attempt. *)
Fixpoint sleeps_precede_retry (tr : list Event) : bool :=
  match tr with
  | [] => true
  | Slept _ :: rest =>
      match rest with
      | Dialed _ _ _ :: _ => sleeps_precede_retry rest
      | _ => false
      end
  | _ :: rest => sleeps_precede_retry rest
  end.

Definition settle : Duration := 1000 * Millisecond.

Definition is_settle (e : Event) : bool :=
  match e with Slept d => d =? settle | _ => false end.

(** The calls to [ContainerCreate] recorded in a trace. *)
Definition create_calls (tr : list Event) : list (Config * HostConfig) :=
  flat_map (fun e => match e with
                     | ContainerCreated cfg hc _ => [(cfg, hc)]
                     | _ => []
                     end) tr.

(** The container the suite's declared port convention asks for: a single
    exposed port, the suite's port, bound to the allocated host port, and
    the same port as the hint in the environment. *)
Definition created_for_port (image : string) (port : string) (hostPort : Z)
  : Config * HostConfig :=
  ({| Image := image; ExposedPorts := {[ port ]};
      Env := ["PORT=" +:+ port] |},
   {| PortBindings :=
        {[ port := [{| HostIP := "0.0.0.0"; HostPort := fmt_d hostPort |}] ]}
   |}).

Definition is_started (e : Event) : bool :=
  match e with ContainerStarted _ None => true | _ => false end.

(** The event of the strategy's call to [ContainerCreate] and the events up
    to a successful start. *)
Definition created_event (image : string) (hostPort : Z) (r : result string)
  : Event :=
  ContainerCreated (created_for_port image "4321" hostPort).1
                   (created_for_port image "4321" hostPort).2 r.

Definition started_prefix (image : string) (hostPort : Z) (cid : string)
  : list Event :=
  [ImagePulled image None; PortAllocated (Ok hostPort);
   created_event image hostPort (Ok cid); ContainerStarted cid None].

(** The six ways a run of the setup strategy ends, by the step that decides
    it, each with the result returned and the events performed. *)
Inductive SetupRun (h : Host) (image : string) (r : Runner)
  : result Container -> list Event -> Prop :=
| PullFails e :
    ImagePull (dockerClient r) image = Some e ->
    SetupRun h image r (Fail e) [ImagePulled image (Some e)]
| PortFails e :
    ImagePull (dockerClient r) image = None ->
    getFreePort h = Fail e ->
    SetupRun h image r (Fail e)
      [ImagePulled image None; PortAllocated (Fail e)]
| CreateFails hp e :
    ImagePull (dockerClient r) image = None ->
    getFreePort h = Ok hp ->
    ContainerCreate (dockerClient r)
      (created_for_port image "4321" hp).1
      (created_for_port image "4321" hp).2 = Fail e ->
    SetupRun h image r (Fail e)
      [ImagePulled image None; PortAllocated (Ok hp);
       created_event image hp (Fail e)]
| StartFails hp cid e :
    ImagePull (dockerClient r) image = None ->
    getFreePort h = Ok hp ->
    ContainerCreate (dockerClient r)
      (created_for_port image "4321" hp).1
      (created_for_port image "4321" hp).2 = Ok cid ->
    ContainerStart (dockerClient r) cid = Some e ->
    SetupRun h image r (Fail e)
      [ImagePulled image None; PortAllocated (Ok hp);
       created_event image hp (Ok cid); ContainerStarted cid (Some e)]
| ProbeFails hp cid e evs :
    ImagePull (dockerClient r) image = None ->
    getFreePort h = Ok hp ->
    ContainerCreate (dockerClient r)
      (created_for_port image "4321" hp).1
      (created_for_port image "4321" hp).2 = Ok cid ->
    ContainerStart (dockerClient r) cid = None ->
    loop_outcome h hp 0 0 10 None = (Some e, evs) ->
    SetupRun h image r (Fail e) (started_prefix image hp cid ++ evs)
| Ready hp cid evs :
    ImagePull (dockerClient r) image = None ->
    getFreePort h = Ok hp ->
    ContainerCreate (dockerClient r)
      (created_for_port image "4321" hp).1
      (created_for_port image "4321" hp).2 = Ok cid ->
    ContainerStart (dockerClient r) cid = None ->
    loop_outcome h hp 0 0 10 None = (None, evs) ->
    SetupRun h image r (Ok {| id := cid; hostPort := hp |})
      (started_prefix image hp cid ++ evs ++ [Slept settle]).

(** The claim that the container is started on the suite's declared port. *)
Definition starts_on_declared_port (s : Suite.t) (h : Host) (image : string)
    (r : Runner) : Prop :=
  exists res tr hp,
    setUpContainerUsingPortEnvVar h image r = Some (res, tr) /\
    getFreePort h = Ok hp /\
    create_calls tr = [created_for_port image (fmt_d (Suite.Port s)) hp].

(** The claim that the probe sleeps only between a failed attempt and the
    retry that follows it. *)
Definition sleeps_only_before_retry (h : Host) (hostPort : Z) : Prop :=
  forall err tr,
    dial_loop h hostPort loop_fuel 0 None [] = Some (err, tr) ->
    sleeps_precede_retry tr = true.

End Probe.

(** ** Engines, hosts and services to run the code against *)

Module Fixtures.
Import Docker Http.

Definition refused : error := Err "dial tcp: connect: connection refused".

(** An engine on which every call succeeds; the container gets the id c1. *)
Definition engine_ok : Runner :=
  {| dockerClient :=
       {| ImagePull := fun _ => None;
          ContainerCreate := fun _ _ => Ok "c1";
          ContainerStart := fun _ => None |} |}.

(** A host whose port 32768 is free and on which the candidate never
    accepts a connection. *)
Definition never_ready : Host :=
  {| getFreePort := Ok 32768; Dial := fun _ _ _ => Some refused |}.

(** The same host with a candidate that accepts the third attempt. *)
Definition ready_at_third : Host :=
  {| getFreePort := Ok 32768;
     Dial := fun n _ _ => if (n <? 2)%nat then Some refused else None |}.

(** A request constructor and a media type reader for well-formed inputs:
    the request carries the method, URL and body it is given and no header;
    the media type is the value up to the first semicolon. *)
Definition newRequest (method url body : string) : result Request :=
  Ok {| Method := method; URL := url; ReqHeader := ∅; ReqBody := body |}.

Fixpoint upto_semicolon (v : string) : string :=
  match v with
  | EmptyString => EmptyString
  | String c v' =>
      if Ascii.eqb c ";"%char then EmptyString else String c (upto_semicolon v')
  end.

Definition parseMediaType (v : string) : result (string * gmap string string) :=
  Ok (upto_semicolon v, ∅).

(** A service that answers every request with 404 and a fixed body. *)
Definition not_found (req : Request) (s : unit) : result Response * unit :=
  (Ok {| StatusCode := 404; Header := ∅; Body := Ok "404 page not found" |},
   s).

(** A conforming service: upper-cases the five-letter greeting on POST /,
    in the representation the Accept header asks for. *)
Definition accepts (req : Request) (mt : string) : bool :=
  bool_decide (ReqHeader req !! "Accept" = Some [mt]).

Definition upper (port : Z) (req : Request) (s : unit)
  : result Response * unit :=
  let plain body ct code :=
    (Ok {| StatusCode := code;
           Header := {[ "Content-Type" := [ct] ]};
           Body := Ok body |}, s) in
  if negb (String.eqb (Method req) "POST"
           && String.eqb (URL req)
                ("http://localhost:" +:+ fmt_d port +:+ "/"))
  then plain "404 page not found" "text/plain; charset=utf-8" 404
  else if negb (bool_decide (ReqHeader req !! "Content-Type"
                             = Some ["text/plain"]))
  then plain "unsupported" "text/plain" 500
  else if accepts req "application/json"
  then plain (dq +:+ "HELLO" +:+ dq) "application/json" 200
  else if accepts req "text/plain"
  then plain "HELLO" "text/plain; charset=utf-8" 200
  else plain "not acceptable" "text/plain" 406.

(** A service that answers every request, on any path and for any method,
    with status 200 and the request's own body. *)
Definition echo (req : Request) (s : unit) : result Response * unit :=
  (Ok {| StatusCode := 200; Header := {[ "Content-Type" := ["text/plain"] ]};
         Body := Ok (ReqBody req) |}, s).


End Fixtures.

(** ** What the verification procedures ask of a response *)

Module Checks.
Import Http.

(** The request as rr-0002 to rr-0005 send it: the Content-Type header set
    first, then the Accept header. *)
Definition with_headers (contentType accept : string) (req : Request)
  : Request :=
  Header_Set "Accept" accept (Header_Set "Content-Type" contentType req).

(** A response with status 200, the given body, and a Content-Type header
    whose media type is the given one. *)
Definition negotiated
    (ParseMediaType : string -> result (string * gmap string string))
    (body mediaType : string) (resp : Response) : Prop :=
  StatusCode resp = 200 /\ Body resp = Ok body /\
  exists v params,
    Header resp !! "Content-Type" = Some [v] /\
    ParseMediaType v = Ok (mediaType, params).

Definition panicked {A} (o : Outcome A) : Prop := exists v, o = Panicked v.

End Checks.

(** ** Measures of a setup trace *)

Module Trace.
Import Docker.

(** The time slept, in nanoseconds. *)
Fixpoint total_sleep (tr : list Event) : Z :=
  match tr with
  | [] => 0
  | Slept d :: tr' => d + total_sleep tr'
  | _ :: tr' => total_sleep tr'
  end.

(** The calls to the engine and the port allocator, without the connection
    attempts and the sleeps. *)
Definition is_probe_event (e : Event) : bool :=
  match e with Dialed _ _ _ | Slept _ => true | _ => false end.

Definition engine_calls (tr : list Event) : list Event :=
  List.filter (fun e => negb (is_probe_event e)) tr.

(** The engine calls of a setup that runs until the first step that fails,
    in the order of the source: pull, port allocation, create, start. *)
Definition calls_until_failure (h : Host) (image : string) (r : Runner)
  : list Event :=
  let client := dockerClient r in
  ImagePulled image (ImagePull client image) ::
  match ImagePull client image with
  | Some _ => []
  | None =>
    PortAllocated (getFreePort h) ::
    match getFreePort h with
    | Fail _ => []
    | Ok hp =>
      let cfg :=
        {| Image := image; ExposedPorts := {[ "4321" ]};
           Env := ["PORT=4321"] |} in
      let hc :=
        {| PortBindings :=
             {[ "4321" := [{| HostIP := "0.0.0.0";
                              HostPort := fmt_d hp |}] ]} |} in
      ContainerCreated cfg hc (ContainerCreate client cfg hc) ::
      match ContainerCreate client cfg hc with
      | Fail _ => []
      | Ok cid => [ContainerStarted cid (ContainerStart client cid)]
      end
    end
  end.

Definition is_teardown (e : Event) : bool :=
  match e with ContainerStopped _ | ContainerRemoved _ => true | _ => false end.

End Trace.

(** ** More engines, hosts and services *)

Module Faults.
Import Docker Http.




(** A service that answers 200 and HELLO with the Content-Type header given
    twice. *)
Definition twice_typed (req : Request) (s : unit) : result Response * unit :=
  (Ok {| StatusCode := 200;
         Header := {[ "Content-Type" := ["text/plain"; "text/plain"] ]};
         Body := Ok "HELLO" |}, s).

(** An engine that cannot start the container it created. *)
Definition start_fails : Runner :=
  {| dockerClient :=
       {| ImagePull := fun _ => None;
          ContainerCreate := fun _ _ => Ok "c1";
          ContainerStart := fun _ => Some (Err "port is already allocated") |}
  |}.



End Faults.

(** * Properties *)

(** ** The probe loop *)

Module ProbeFacts.
Import Docker Probe.

Lemma dial_count_app (tr1 tr2 : list Event) :
  dial_count (tr1 ++ tr2) = (dial_count tr1 + dial_count tr2)%nat.
Proof. unfold dial_count. by rewrite List.filter_app, length_app. Qed.

Lemma dial_count_dialed (tr : list Event) network addr err :
  dial_count (tr ++ [Dialed network addr err]) = S (dial_count tr).
Proof. rewrite dial_count_app. cbn. lia. Qed.

Lemma dial_count_slept (tr : list Event) d :
  dial_count (tr ++ [Slept d]) = dial_count tr.
Proof. rewrite dial_count_app. cbn. lia. Qed.

(** The delays of the ten attempts fit a [Duration]: the multiplication
    does not wrap. *)
Lemma wrap64_backoff (i : nat) :
  (i < 10)%nat -> wrap64 (10 * Millisecond * Pow2 (Z.of_nat i)) = backoff i.
Proof.
  intros Hi. do 10 (destruct i as [|i]; [reflexivity|]). lia.
Qed.

(** The loop invariant: entered with index [i], with [m] iterations to go
    and enough fuel, the loop ends and adds the events of [loop_outcome]. *)
Lemma dial_loop_from (h : Host) (hostPort : Z) (k0 m : nat) :
  forall (i fuel : nat) (err : option error) (tr : list Event),
    (i + m = 10)%nat -> (m < fuel)%nat -> dial_count tr = (k0 + i)%nat ->
    dial_loop h hostPort fuel (Z.of_nat i) err tr =
    Some (fst (loop_outcome h hostPort k0 i m err),
          tr ++ snd (loop_outcome h hostPort k0 i m err)).
Proof.
  induction m as [|m IH]; intros i fuel err tr Him Hfuel Hcount.
  - destruct fuel as [|fuel]; [lia|]. cbn [dial_loop].
    assert ((Z.of_nat i <? 10) = false) as -> by (apply Z.ltb_ge; lia).
    unfold loop_outcome. cbn. by rewrite app_nil_r.
  - destruct fuel as [|fuel]; [lia|]. cbn [dial_loop].
    assert ((Z.of_nat i <? 10) = true) as -> by (apply Z.ltb_lt; lia).
    cbv zeta. rewrite Hcount. fold (address hostPort).
    assert (ready h hostPort k0 i
            = is_nil (Dial h (k0 + i) "tcp" (address hostPort))) as Hready
      by reflexivity.
    destruct (Dial h (k0 + i) "tcp" (address hostPort)) as [e|] eqn:Hd;
      cbn [is_nil] in Hready.
    + rewrite wrap64_backoff by lia.
      replace (Z.of_nat i + 1) with (Z.of_nat (S i)) by lia.
      rewrite (IH (S i) fuel (Some e)); [|lia|lia|].
      2:{ rewrite dial_count_slept, dial_count_dialed. lia. }
      unfold loop_outcome. cbn [seq find]. rewrite Hready.
      destruct (find (ready h hostPort k0) (seq (S i) m)) as [n|] eqn:Hfind.
      * apply find_some in Hfind as [Hn _]. apply in_seq in Hn.
        replace (n - i)%nat with (S (n - S i)) by lia.
        cbn [seq flat_map fst snd]. unfold failed_attempt at 2.
        rewrite Hd. by rewrite <- !app_assoc.
      * cbn [seq flat_map fst snd]. unfold failed_attempt at 2.
        rewrite Hd. rewrite <- !app_assoc. cbn [app].
        destruct m as [|m']; [|done].
        assert (i = 9%nat) as -> by lia. by rewrite Hd.
    + unfold loop_outcome. cbn [seq find]. rewrite Hready.
      cbn [fst snd]. by rewrite Nat.sub_diag.
Qed.

(** The loop as the setup strategy enters it. *)
Lemma dial_loop_run (h : Host) (hostPort : Z) (fuel : nat)
    (err : option error) (tr : list Event) :
  (loop_fuel <= fuel)%nat ->
  dial_loop h hostPort fuel 0 err tr =
  Some (fst (loop_outcome h hostPort (dial_count tr) 0 10 err),
        tr ++ snd (loop_outcome h hostPort (dial_count tr) 0 10 err)).
Proof.
  intros Hfuel. unfold loop_fuel in Hfuel.
  apply (dial_loop_from h hostPort (dial_count tr) 10 0%nat); lia.
Qed.

(** [find] on a range returns the first index that satisfies the test. *)
Lemma find_seq_first (P : nat -> bool) (m : nat) :
  forall (i n : nat),
    find P (seq i m) = Some n ->
    (i <= n < i + m)%nat /\ P n = true /\
    forall j, (i <= j < n)%nat -> P j = false.
Proof.
  induction m as [|m IH]; intros i n Hfind; [discriminate|].
  cbn [seq find] in Hfind. destruct (P i) eqn:HPi.
  - injection Hfind as <-. repeat split; [lia|lia|done|intros j Hj; lia].
  - apply IH in Hfind as (Hn & HPn & Hbefore).
    repeat split; [lia|lia|done|].
    intros j Hj. destruct (decide (j = i)) as [->|Hne]; [done|].
    apply Hbefore. lia.
Qed.

Lemma backoff_ne_settle (n : nat) : backoff n <> settle.
Proof.
  unfold backoff, settle, Millisecond. intros Heq.
  assert (2 ^ Z.of_nat n = 100) as Hpow by lia. clear Heq.
  do 7 (destruct n as [|n]; [discriminate Hpow|]).
  assert (2 ^ 7 <= 2 ^ Z.of_nat (S (S (S (S (S (S (S n))))))))
    by (apply Z.pow_le_mono_r; lia).
  lia.
Qed.

Section FailedAttempts.
Variables (h : Host) (hostPort : Z) (k0 : nat).

Lemma failed_attempts_count (l : list nat) :
  dial_count (flat_map (failed_attempt h hostPort k0) l) = length l.
Proof.
  induction l as [|j l IH]; [done|].
  cbn [flat_map]. rewrite dial_count_app, IH. reflexivity.
Qed.

Lemma failed_attempts_no_settle (l : list nat) :
  existsb is_settle (flat_map (failed_attempt h hostPort k0) l) = false.
Proof.
  induction l as [|j l IH]; [done|].
  cbn [flat_map]. rewrite existsb_app, IH.
  cbn [failed_attempt existsb is_settle orb].
  destruct (Z.eqb_spec (backoff j) settle) as [Heq|]; [|done].
  by apply backoff_ne_settle in Heq.
Qed.

Lemma failed_attempts_no_success (l : list nat) :
  (forall j, In j l -> ready h hostPort k0 j = false) ->
  existsb dial_succeeded (flat_map (failed_attempt h hostPort k0) l) = false.
Proof.
  induction l as [|j l IH]; intros Hl; [done|].
  cbn [flat_map]. rewrite existsb_app, IH by (intros; apply Hl; by right).
  specialize (Hl j (or_introl eq_refl)). unfold ready in Hl.
  cbn [failed_attempt existsb dial_succeeded orb].
  by destruct (Dial h (k0 + j) "tcp" (address hostPort)).
Qed.

(** What the ten iterations leave: at most ten attempts, no sleep of the
    settle delay, and either a first successful attempt at the very end
    or ten failed attempts and the error of the last. *)
Lemma loop_outcome_facts (err e : option error) (evs : list Event) :
  loop_outcome h hostPort k0 0 10 err = (e, evs) ->
  (dial_count evs <= 10)%nat /\ existsb is_settle evs = false /\
  match e with
  | None =>
      exists n,
        (n < 10)%nat /\
        evs = flat_map (failed_attempt h hostPort k0) (seq 0 n)
                ++ [Dialed "tcp" (address hostPort) None] /\
        existsb dial_succeeded
          (flat_map (failed_attempt h hostPort k0) (seq 0 n)) = false
  | Some _ =>
      evs = flat_map (failed_attempt h hostPort k0) (seq 0 10) /\
      e = Dial h (k0 + 9) "tcp" (address hostPort) /\
      existsb dial_succeeded evs = false /\ dial_count evs = 10%nat
  end.
Proof.
  unfold loop_outcome.
  destruct (find (ready h hostPort k0) (seq 0 10)) as [n|] eqn:Hfind.
  - intros [= <- <-].
    apply find_seq_first in Hfind as (Hn & _ & Hbefore).
    rewrite Nat.sub_0_r.
    rewrite dial_count_dialed, failed_attempts_count, length_seq.
    rewrite existsb_app, failed_attempts_no_settle.
    split; [lia|]. split; [reflexivity|].
    exists n. split; [lia|]. split; [reflexivity|].
    apply failed_attempts_no_success.
    intros j Hj%in_seq. apply Hbefore. lia.
  - intros [<- <-]%pair_equal_spec.
    assert (forall j, In j (seq 0 10) -> ready h hostPort k0 j = false)
      as Hnone by (intros j Hj; by apply (find_none _ _ Hfind)).
    rewrite failed_attempts_count, length_seq, failed_attempts_no_settle.
    split; [lia|]. split; [reflexivity|].
    assert (ready h hostPort k0 9 = false) as H9
      by (apply Hnone, in_seq; lia).
    unfold ready in H9.
    destruct (Dial h (k0 + 9) "tcp" (address hostPort)) as [e9|] eqn:Hd;
      [|discriminate H9].
    split; [reflexivity|]. split; [reflexivity|].
    split; [by apply failed_attempts_no_success|reflexivity].
Qed.
End FailedAttempts.


(** The loop leaves a nil error exactly when one of the ten attempts
    connects. *)
Lemma loop_outcome_success_iff (h : Host) (hp : Z) (k0 : nat)
    (err : option error) :
  (loop_outcome h hp k0 0 10 err).1 = None <->
  exists n, (n < 10)%nat /\ Dial h (k0 + n) "tcp" (address hp) = None.
Proof.
  unfold loop_outcome.
  destruct (find (ready h hp k0) (seq 0 10)) as [n|] eqn:Hfind; cbn [fst].
  - apply find_seq_first in Hfind as (Hn & Hready & _).
    split; [intros _|done]. exists n. split; [lia|].
    unfold ready in Hready.
    by destruct (Dial h (k0 + n) "tcp" (address hp)).
  - split.
    + intros H9. exists 9%nat. split; [lia|done].
    + intros (n & Hn & Hdial).
      assert (ready h hp k0 n = false) as Hready
        by (apply (find_none _ _ Hfind), in_seq; lia).
      unfold ready in Hready. rewrite Hdial in Hready. discriminate Hready.
Qed.

End ProbeFacts.

(** ** The default setup strategy *)

Module SetupFacts.
Import Docker Probe ProbeFacts Trace Fixtures.

(** The strategy always returns, in one of the six ways of [SetupRun]. *)
Lemma setUp_run (h : Host) (image : string) (r : Runner) :
  exists res tr,
    setUpContainerUsingPortEnvVar h image r = Some (res, tr) /\
    SetupRun h image r res tr.
Proof.
  unfold setUpContainerUsingPortEnvVar. cbv zeta.
  destruct (ImagePull (dockerClient r) image) as [e|] eqn:Hpull.
  { eexists _, _. split; [reflexivity|]. by apply PullFails. }
  destruct (getFreePort h) as [hp|e] eqn:Hport.
  2:{ eexists _, _. split; [reflexivity|]. by apply PortFails. }
  change {| Image := image; ExposedPorts := {[ "4321" ]};
            Env := ["PORT=4321"] |}
    with (created_for_port image "4321" hp).1.
  change {| PortBindings :=
              {[ "4321" := [{| HostIP := "0.0.0.0";
                               HostPort := fmt_d hp |}] ]} |}
    with (created_for_port image "4321" hp).2.
  destruct (ContainerCreate (dockerClient r)
              (created_for_port image "4321" hp).1
              (created_for_port image "4321" hp).2) as [cid|e] eqn:Hcreate.
  2:{ eexists _, _. split; [reflexivity|]. by apply CreateFails. }
  destruct (ContainerStart (dockerClient r) cid) as [e|] eqn:Hstart.
  { eexists _, _. split; [reflexivity|]. by eapply StartFails. }
  rewrite dial_loop_run by reflexivity.
  change (dial_count _) with 0%nat.
  destruct (loop_outcome h hp 0 0 10 None) as [[e|] evs] eqn:Hloop;
    cbn [fst snd].
  - eexists _, _. split; [reflexivity|]. by apply ProbeFails.
  - eexists _, _. split; [reflexivity|].
    rewrite <- app_assoc. by apply Ready.
Qed.

Lemma create_calls_app (tr1 tr2 : list Event) :
  create_calls (tr1 ++ tr2) = create_calls tr1 ++ create_calls tr2.
Proof. apply flat_map_app. Qed.

Lemma create_calls_attempts (h : Host) (hp : Z) (k0 : nat) (l : list nat) :
  create_calls (flat_map (failed_attempt h hp k0) l) = [].
Proof.
  induction l as [|j l IH]; [done|].
  cbn [flat_map]. by rewrite create_calls_app, IH.
Qed.

Lemma running_step_no_engine_event (tr : list Event) (acc : list string) :
  forallb (fun e => is_dial e || is_sleep e) tr = true ->
  fold_left running_step tr acc = acc.
Proof.
  revert acc. induction tr as [|e tr IH]; intros acc Htr; [done|].
  cbn [forallb] in Htr. apply andb_prop in Htr as [He Htr].
  cbn [fold_left]. rewrite IH by done.
  by destruct e; try discriminate He.
Qed.

Lemma running_app_no_engine_event (tr1 tr2 : list Event) :
  forallb (fun e => is_dial e || is_sleep e) tr2 = true ->
  running (tr1 ++ tr2) = running tr1.
Proof.
  intros Htr2. unfold running. rewrite fold_left_app.
  by apply running_step_no_engine_event.
Qed.

(** A stop or a removal takes out a container started before it, and only
    such a container. *)
Example running_after_teardown :
  running [ContainerStarted "c1" None; ContainerStopped "c1";
           ContainerRemoved "c1"] = [] /\
  running [ContainerStopped "c1"; ContainerStarted "c1" None] = ["c1"] /\
  running [ContainerStarted "c1" None; ContainerStarted "c2" None;
           ContainerStopped "c1"] = ["c2"].
Proof. repeat split. Qed.

Lemma attempts_no_engine_event (h : Host) (hp : Z) (k0 : nat) (l : list nat) :
  forallb (fun e => is_dial e || is_sleep e)
    (flat_map (failed_attempt h hp k0) l) = true.
Proof.
  induction l as [|j l IH]; [done|]. cbn [flat_map].
  by rewrite forallb_app, IH.
Qed.

(** Where a failed setup leaves the engine: no container was started when
    the failure is that of the pull, the port allocation, the creation or
    the start; after ten failed connection attempts the container that was
    started is still running. *)
Lemma setup_failure_running (h : Host) (image : string) (r : Runner)
    (e : error) (tr : list Event) :
  setUpContainerUsingPortEnvVar h image r = Some (Fail e, tr) ->
  (existsb is_started tr = false /\ running tr = []) \/
  (exists cid,
     existsb is_started tr = true /\ running tr = [cid] /\
     dial_count tr = 10%nat /\ existsb dial_succeeded tr = false).
Proof.
  intros Hsetup.
  destruct (setUp_run h image r) as (res & tr' & Heq & Hrun).
  rewrite Hsetup in Heq. injection Heq as <- <-.
  inversion Hrun as [ | | | | hp cid e' evs _ _ _ _ Hloop | ]; subst;
    try (left; split; reflexivity).
  right. exists cid.
  apply loop_outcome_facts in Hloop as (_ & _ & -> & _ & Hnone & Hcount).
  split; [reflexivity|]. split; [|split].
  - rewrite running_app_no_engine_event by apply attempts_no_engine_event.
    reflexivity.
  - rewrite dial_count_app, Hcount. reflexivity.
  - rewrite existsb_app, Hnone. reflexivity.
Qed.

(** C1, at an engine on which every call succeeds and a candidate that
    never accepts a connection: the setup strategy returns the error of the
    last connection attempt; its trace holds the successful start of the
    container c1 and no stop or removal of any container, so that c1 is
    running when the strategy returns. *)
Theorem setup_probe_failure_leaves_container_running :
  exists tr,
    setUpContainerUsingPortEnvVar never_ready "upper" engine_ok
      = Some (Fail refused, tr) /\
    In (ContainerStarted "c1" None) tr /\
    existsb is_teardown tr = false /\
    running tr = ["c1"].
Proof.
  eexists. split; [vm_compute; reflexivity|].
  split; [|split; vm_compute; reflexivity].
  do 3 right. left. reflexivity.
Qed.

(** C2, as the claim states it, fails: on the suite rr, which declares port
    8080, the container is not created with 8080 as its exposed port and
    port hint. *)
Lemma setup_ignores_declared_port :
  ~ starts_on_declared_port (Request_reply newRequest parseMediaType)
      ready_at_third "upper" engine_ok.
Proof.
  intros (res & tr & hp & Hsetup & Hport & Hcalls).
  vm_compute in Hsetup. injection Hsetup as <- <-.
  injection Hport as <-.
  apply (f_equal (map (fun c => Env c.1))) in Hcalls.
  vm_compute in Hcalls. discriminate Hcalls.
Qed.

(** C2, amended: the setup strategy calls [ContainerCreate] once the pull
    and the port allocation have succeeded, and only once; the container
    has a single exposed port, the fixed port 4321, bound to the allocated
    host port on 0.0.0.0, and the hint PORT=4321 in its environment names
    that exposed port.  The port does not come from the suite. *)
Theorem setup_creates_container_on_4321 (h : Host) (image : string)
    (r : Runner) :
  exists res tr,
    setUpContainerUsingPortEnvVar h image r = Some (res, tr) /\
    create_calls tr =
      match ImagePull (dockerClient r) image, getFreePort h with
      | None, Ok hp =>
          [({| Image := image; ExposedPorts := {[ "4321" ]};
               Env := ["PORT=" +:+ "4321"] |},
            {| PortBindings :=
                 {[ "4321" := [{| HostIP := "0.0.0.0";
                                  HostPort := fmt_d hp |}] ]} |})]
      | _, _ => []
      end.
Proof.
  destruct (setUp_run h image r) as (res & tr & Heq & Hrun).
  exists res, tr. split; [exact Heq|].
  inversion Hrun as [ e Hp | e Hp Hf | hp e Hp Hf | hp cid e Hp Hf
                    | hp cid e evs Hp Hf _ _ Hloop
                    | hp cid evs Hp Hf _ _ Hloop ]; subst;
    rewrite Hp; try rewrite Hf; try reflexivity.
  - apply loop_outcome_facts in Hloop as (_ & _ & -> & _).
    by rewrite create_calls_app, create_calls_attempts.
  - apply loop_outcome_facts in Hloop as (_ & _ & n & _ & -> & _).
    by rewrite !create_calls_app, create_calls_attempts.
Qed.

(** C3: the setup strategy always returns; it makes at most ten connection
    attempts; when no attempt succeeds it returns an error, after exactly
    ten attempts if the container was started; and the probe loop needs no
    more than its eleven evaluations of the loop condition, whatever the
    answers of the host. *)
Theorem probe_makes_at_most_ten_attempts (h : Host) (image : string)
    (r : Runner) :
  exists res tr,
    setUpContainerUsingPortEnvVar h image r = Some (res, tr) /\
    (dial_count tr <= 10)%nat /\
    (existsb dial_succeeded tr = false ->
     exists e, res = Fail e /\
               (existsb is_started tr = true -> dial_count tr = 10%nat)) /\
    (forall hostPort fuel err tr0,
       (loop_fuel <= fuel)%nat ->
       exists err' tr',
         dial_loop h hostPort fuel 0 err tr0 = Some (err', tr') /\
         dial_loop h hostPort loop_fuel 0 err tr0 = Some (err', tr') /\
         (dial_count tr' <= dial_count tr0 + 10)%nat).
Proof.
  destruct (setUp_run h image r) as (res & tr & Heq & Hrun).
  exists res, tr. split; [exact Heq|].
  split; [|split].
  - inversion Hrun as [ | | | | hp cid e evs _ _ _ _ Hloop
                      | hp cid evs _ _ _ _ Hloop ]; subst;
      try (cbn; lia);
      apply loop_outcome_facts in Hloop as (Hle & _);
      rewrite !dial_count_app; cbn; lia.
  - intros Hnone.
    inversion Hrun as [ | | | | hp cid e evs _ _ _ _ Hloop
                      | hp cid evs _ _ _ _ Hloop ]; subst;
      try (eexists; split; [reflexivity|discriminate]).
    + apply loop_outcome_facts in Hloop as (_ & _ & _ & _ & _ & Hcount).
      eexists. split; [reflexivity|]. intros _.
      rewrite dial_count_app, Hcount. reflexivity.
    + apply loop_outcome_facts in Hloop as (_ & _ & n & _ & -> & _).
      rewrite !existsb_app in Hnone. cbn in Hnone.
      rewrite orb_true_r in Hnone. discriminate Hnone.
  - intros hostPort fuel err tr0 Hfuel.
    eexists _, _. split; [by apply dial_loop_run|].
    split; [by apply dial_loop_run|].
    destruct (loop_outcome h hostPort (dial_count tr0) 0 10 err)
      as [e evs] eqn:Hloop.
    apply loop_outcome_facts in Hloop as (Hle & _).
    cbn [snd]. rewrite dial_count_app. lia.
Qed.


(** C4, as the claim states it, fails: when the candidate never accepts a
    connection, the probe sleeps after the tenth failed attempt as well,
    and no retry follows that sleep. *)
Lemma probe_sleeps_after_last_attempt :
  ~ sleeps_only_before_retry never_ready 32768.
Proof.
  intros Hclaim.
  specialize (Hclaim (Some refused) _ eq_refl).
  vm_compute in Hclaim. discriminate Hclaim.
Qed.

(** C4, amended: the probe attempts a raw TCP connection to the allocated
    port; after every failed attempt, numbered N from zero, it sleeps for
    ten milliseconds times 2^N and, unless that was the tenth attempt,
    retries.  It stops without sleeping at the first attempt that connects;
    after ten failed attempts (and ten sleeps, the last of 5120 ms) it
    reports the error of the last attempt. *)
Theorem probe_backoff_trace (h : Host) (hostPort : Z) (err : option error)
    (tr0 : list Event) :
  let k0 := dial_count tr0 in
  let failed n := Dial h (k0 + n) "tcp" (address hostPort) <> None in
  let attempts n :=
    flat_map (fun j =>
      [Dialed "tcp" (address hostPort)
         (Dial h (k0 + j) "tcp" (address hostPort));
       Slept (10 * Millisecond * 2 ^ Z.of_nat j)]) (seq 0 n) in
  (exists n, (n < 10)%nat /\
     (forall j, (j < n)%nat -> failed j) /\
     Dial h (k0 + n) "tcp" (address hostPort) = None /\
     dial_loop h hostPort loop_fuel 0 err tr0 =
     Some (None,
           tr0 ++ attempts n ++ [Dialed "tcp" (address hostPort) None]))
  \/
  ((forall j, (j < 10)%nat -> failed j) /\
   dial_loop h hostPort loop_fuel 0 err tr0 =
   Some (Dial h (k0 + 9) "tcp" (address hostPort), tr0 ++ attempts 10%nat) /\
   last (attempts 10%nat) = Some (Slept (5120 * Millisecond))).
Proof.
  intros k0 failed attempts.
  rewrite dial_loop_run by reflexivity. fold k0.
  unfold loop_outcome.
  destruct (find (ready h hostPort k0) (seq 0 10)) as [n|] eqn:Hfind.
  - left. exists n.
    apply find_seq_first in Hfind as (Hn & Hready & Hbefore).
    split; [lia|]. split; [|split].
    + intros j Hj Hnil. specialize (Hbefore j ltac:(lia)).
      unfold ready in Hbefore. rewrite Hnil in Hbefore. discriminate Hbefore.
    + unfold ready in Hready.
      by destruct (Dial h (k0 + n) "tcp" (address hostPort)).
    + cbn [fst snd]. by rewrite Nat.sub_0_r.
  - right. split; [|split; reflexivity].
    intros j Hj Hnil.
    assert (ready h hostPort k0 j = false) as Hready
      by (apply (find_none _ _ Hfind), in_seq; lia).
    unfold ready in Hready. rewrite Hnil in Hready. discriminate Hready.
Qed.

(** C5: once the container is started, the setup strategy returns the
    handle exactly when one of its ten connection attempts succeeds.  If
    one does, the trace ends with the first successful attempt followed by
    the settle delay of 1000 ms, the only sleep of that length, and the
    handle of the started container is returned; if none does, the strategy
    returns the error of the tenth attempt, no handle, and has slept no
    settle delay.  No settle delay is slept either when the strategy fails
    at an earlier step. *)
Theorem settle_delay_only_after_first_success (h : Host) (image : string)
    (r : Runner) :
  exists res tr,
    setUpContainerUsingPortEnvVar h image r = Some (res, tr) /\
    match res with
    | Ok c =>
        exists tr',
          tr = tr' ++ [Dialed "tcp" (address (hostPort c)) None;
                       Slept (1000 * Millisecond)] /\
          existsb dial_succeeded tr' = false /\
          existsb is_settle tr' = false /\
          getFreePort h = Ok (hostPort c)
    | Fail _ =>
        existsb dial_succeeded tr = false /\ existsb is_settle tr = false
    end /\
    forall hp cid,
      ImagePull (dockerClient r) image = None ->
      getFreePort h = Ok hp ->
      ContainerCreate (dockerClient r)
        (created_for_port image "4321" hp).1
        (created_for_port image "4321" hp).2 = Ok cid ->
      ContainerStart (dockerClient r) cid = None ->
      ((exists n, (n < 10)%nat /\ Dial h n "tcp" (address hp) = None) ->
       res = Ok {| id := cid; hostPort := hp |} /\
       exists tr',
         tr = tr' ++ [Dialed "tcp" (address hp) None;
                      Slept (1000 * Millisecond)]) /\
      ((forall n, (n < 10)%nat -> Dial h n "tcp" (address hp) <> None) ->
       exists e, Dial h 9 "tcp" (address hp) = Some e /\ res = Fail e /\
                 existsb is_settle tr = false).
Proof.
  destruct (setUp_run h image r) as (res & tr & Heq & Hrun).
  exists res, tr. split; [exact Heq|]. split.
  - inversion Hrun as [ | | | | hp cid e evs _ _ _ _ Hloop
                      | hp cid evs _ Hport _ _ Hloop ]; subst;
      try (split; reflexivity).
    + apply loop_outcome_facts in Hloop as (_ & Hsettle & _ & _ & Hnone & _).
      rewrite !existsb_app, Hnone, Hsettle. split; reflexivity.
    + apply loop_outcome_facts in Hloop
        as (_ & Hsettle & n & _ & -> & Hnone).
      rewrite existsb_app in Hsettle.
      apply orb_false_elim in Hsettle as [Hs _].
      exists (started_prefix image hp cid
                ++ flat_map (failed_attempt h hp 0) (seq 0 n)).
      cbn [hostPort]. split; [by rewrite <- !app_assoc|].
      rewrite !existsb_app, Hnone, Hs. by repeat split.
  - intros hp0 cid0 Hp0 Hf0 Hc0 Hs0.
    inversion Hrun as [ e Hp | e Hp Hf | hp e Hp Hf Hc
                      | hp cid e Hp Hf Hc Hs
                      | hp cid e evs Hp Hf Hc Hs Hloop
                      | hp cid evs Hp Hf Hc Hs Hloop ]; subst;
      try congruence;
      rewrite Hf0 in Hf; injection Hf as <-;
      try congruence;
      rewrite Hc0 in Hc; injection Hc as <-;
      try congruence.
    + split.
      * intros Hready.
        apply (loop_outcome_success_iff h hp0 0 None) in Hready.
        rewrite Hloop in Hready. discriminate Hready.
      * intros _.
        apply loop_outcome_facts in Hloop
          as (_ & Hsettle & -> & H9 & _).
        exists e. split; [done|]. split; [done|].
        by rewrite existsb_app, Hsettle.
    + split.
      * intros _. split; [done|].
        apply loop_outcome_facts in Hloop as (_ & _ & n & _ & -> & _).
        exists (started_prefix image hp0 cid0
                  ++ flat_map (failed_attempt h hp0 0) (seq 0 n)).
        by rewrite <- !app_assoc.
      * intros Hnone. exfalso.
        assert ((loop_outcome h hp0 0 0 10 None).1 = None) as Hok
          by (by rewrite Hloop).
        apply loop_outcome_success_iff in Hok as (n & Hn & Hdial).
        by apply (Hnone n).
Qed.

(** A candidate that accepts the third attempt: two failed attempts with
    their delays of 10 and 20 ms, the successful attempt, the settle delay,
    and the handle. *)
Example setup_ready_at_third :
  exists tr,
    setUpContainerUsingPortEnvVar ready_at_third "upper" engine_ok
      = Some (Ok {| id := "c1"; hostPort := 32768 |}, tr) /\
    List.filter (fun e => is_dial e || is_sleep e) tr =
    [Dialed "tcp" "localhost:32768" (Some refused);
     Slept (10 * Millisecond);
     Dialed "tcp" "localhost:32768" (Some refused);
     Slept (20 * Millisecond);
     Dialed "tcp" "localhost:32768" None;
     Slept (1000 * Millisecond)] /\
    running tr = ["c1"].
Proof. eexists. repeat split; vm_compute; reflexivity. Qed.


End SetupFacts.

(** ** The verification procedures *)

Module CaseFacts.
Import Http Checks Fixtures.

Section Service.
Variable NewRequest : string -> string -> string -> result Request.
Variable ParseMediaType : string -> result (string * gmap string string).
Context {S : Type} (serve : Request -> S -> result Response * S).

Lemma run_bind {A B} (p : Proc A) (f : A -> Proc B) (s : S) :
  run serve (bind p f) s =
  match run serve p s with
  | (Completed a, s') => run serve (f a) s'
  | (Panicked v, s') => (Panicked v, s')
  end.
Proof.
  revert s. induction p as [a|v|req k IH]; intros s; cbn [bind run];
    try reflexivity.
  destruct (serve req s) as [r s']. apply IH.
Qed.

Lemma outcome_unit_cases (o : Outcome unit) :
  o = Completed tt \/ panicked o.
Proof. destruct o as [[]|v]; [by left|right; by exists v]. Qed.

(** The checks of rr-0002 on a response send nothing; they return when
    the response is the negotiated one and panic otherwise. *)
Lemma check_negotiated_cases (body mediaType diag : string)
    (resp : Response) (result : string) :
  (check_negotiated ParseMediaType body mediaType diag resp result
     = Return tt /\
   StatusCode resp = 200 /\ result = body /\
   exists v params,
     Header resp !! "Content-Type" = Some [v] /\
     ParseMediaType v = Ok (mediaType, params)) \/
  ((exists v,
      check_negotiated ParseMediaType body mediaType diag resp result
        = Panic v) /\
   ~ (StatusCode resp = 200 /\ result = body /\
      exists v params,
        Header resp !! "Content-Type" = Some [v] /\
        ParseMediaType v = Ok (mediaType, params))).
Proof.
  unfold check_negotiated, StatusOK, Header_index,
    CanonicalHeaderKey_ContentType.
  destruct (Z.eqb_spec (StatusCode resp) 200) as [Hst|Hst]; cbn [negb].
  2:{ right. split; [by eexists|]. by intros (? & _). }
  destruct (String.eqb_spec body result) as [Hb|Hb]; cbn [negb].
  2:{ right. split; [by eexists|]. by intros (_ & ? & _). }
  destruct (Header resp !! "Content-Type") as [hs|] eqn:Hh;
    cbn [default from_option]; unfold id.
  2:{ right. split; [by eexists|]. by intros (_ & _ & ? & ? & ? & _). }
  destruct hs as [|hs0 [|hs1 hs]].
  1,3: right; split; [by eexists|];
       by intros (_ & _ & ? & ? & ? & _).
  cbv beta iota zeta.
  destruct (ParseMediaType hs0) as [[mt params]|e] eqn:Hp.
  2:{ right. split; [by eexists|].
      intros (_ & _ & v & ps & [= <-] & Hv). congruence. }
  destruct (String.eqb_spec mt mediaType) as [->|Hmt]; cbn [negb].
  - left. split; [done|]. split; [done|]. split; [done|]. by exists hs0, params.
  - right. split; [by eexists|].
    intros (_ & _ & v & ps & [= <-] & Hv). congruence.
Qed.

(** C7: rr-0002 completes normally exactly when the POST to / with
    Content-Type text/plain, Accept text/plain and body hello is answered
    with status 200, the body HELLO and a Content-Type of media type
    text/plain, and the same request with Accept application/json is then
    answered with status 200, the body HELLO in double quotes and a
    Content-Type of media type application/json; in every other case the
    procedure panics with a diagnostic. *)
Theorem rr_0002_completes_iff_negotiated (port : Z) (s : S) :
  ((run serve (T_rr_0002 NewRequest ParseMediaType port) s).1
     = Completed tt <->
   exists req resp1 s1 resp2 s2,
     NewRequest "POST" (localhost port "/") "hello" = Ok req /\
     serve (with_headers "text/plain" "text/plain" req) s
       = (Ok resp1, s1) /\
     negotiated ParseMediaType "HELLO" "text/plain" resp1 /\
     serve (with_headers "text/plain" "application/json" req) s1
       = (Ok resp2, s2) /\
     negotiated ParseMediaType (dq +:+ "HELLO" +:+ dq) "application/json"
       resp2) /\
  ((run serve (T_rr_0002 NewRequest ParseMediaType port) s).1
     = Completed tt \/
   panicked (run serve (T_rr_0002 NewRequest ParseMediaType port) s).1).
Proof.
  split; [|apply outcome_unit_cases].
  unfold T_rr_0002, with_headers, negotiated.
  destruct (NewRequest "POST" (localhost port "/") "hello")
    as [req|e] eqn:Hreq; cbn [orPanic bind Do run fst].
  2:{ split; [discriminate|]. by intros (? & ? & ? & ? & ? & ? & _). }
  destruct (serve _ s) as [[resp1|e1] s1] eqn:Hs1;
    cbn [orPanic bind run fst].
  2:{ split; [discriminate|].
      intros (? & ? & ? & ? & ? & [= <-] & Hs & _). congruence. }
  destruct (Body resp1) as [b1|e1] eqn:Hb1; cbn [orPanic bind run fst].
  2:{ split; [discriminate|].
      intros (? & ? & ? & ? & ? & [= <-] & Hs & (_ & Hb & _) & _).
      congruence. }
  rewrite run_bind.
  destruct (check_negotiated_cases "HELLO" "text/plain"
              "Expected result as text/plain HELLO, got " resp1 b1)
    as [(-> & Hst1 & -> & Hct1)|((v & ->) & Hnot)]; cbn [run fst].
  2:{ split; [discriminate|].
      intros (? & ? & ? & ? & ? & [= <-] & Hs & (Hst & Hb & Hct) & _).
      rewrite Hs1 in Hs. injection Hs as <- <-. exfalso. apply Hnot.
      split; [done|]. split; [congruence|done]. }
  destruct (serve _ s1) as [[resp2|e2] s2] eqn:Hs2;
    cbn [orPanic bind run fst].
  2:{ split; [discriminate|].
      intros (? & ? & ? & ? & ? & [= <-] & Hs & _ & Hs' & _).
      rewrite Hs1 in Hs. injection Hs as <- <-. congruence. }
  destruct (Body resp2) as [b2|e2] eqn:Hb2; cbn [orPanic bind run fst].
  2:{ split; [discriminate|].
      intros (? & ? & ? & ? & ? & [= <-] & Hs & _ & Hs' & (_ & Hb & _)).
      rewrite Hs1 in Hs. injection Hs as <- <-.
      rewrite Hs2 in Hs'. injection Hs' as <- <-. congruence. }
  match goal with
  | |- context [check_negotiated _ ?b ?t ?d resp2 b2] =>
      destruct (check_negotiated_cases b t d resp2 b2)
        as [(-> & Hst2 & -> & Hct2)|((v & ->) & Hnot)]; cbn [run fst]
  end.
  - split; [intros _|done].
    exists req, resp1, s1, resp2, s2. by repeat split.
  - split; [discriminate|].
    intros (? & ? & ? & ? & ? & [= <-] & Hs & _ & Hs' & (Hst & Hb & Hct)).
    rewrite Hs1 in Hs. injection Hs as <- <-.
    rewrite Hs2 in Hs'. injection Hs' as <- <-. exfalso. apply Hnot.
    split; [done|]. split; [congruence|done].
Qed.

(** C8: rr-0004 sends a POST to / whose body is malformed JSON (an opening
    double quote that is never closed) with Content-Type application/json,
    and completes normally exactly when it is answered with a status code
    of at least 500; on a status below 500 it panics with the diagnostic
    that names the status. *)
Theorem rr_0004_completes_iff_status_5xx (port : Z) (s : S) :
  ((run serve (T_rr_0004 NewRequest port) s).1 = Completed tt <->
   exists req resp s',
     NewRequest "POST" (localhost port "/") (dq +:+ "hello") = Ok req /\
     serve (with_headers "application/json" "text/plain" req) s
       = (Ok resp, s') /\
     500 <= StatusCode resp) /\
  (forall req resp s',
     NewRequest "POST" (localhost port "/") (dq +:+ "hello") = Ok req ->
     serve (with_headers "application/json" "text/plain" req) s
       = (Ok resp, s') ->
     StatusCode resp < 500 ->
     (run serve (T_rr_0004 NewRequest port) s).1
       = Panicked (PanicStr ("Expected 5xx http code, got "
                             +:+ fmt_d (StatusCode resp)))).
Proof.
  unfold T_rr_0004, with_headers.
  destruct (NewRequest "POST" (localhost port "/") (dq +:+ "hello"))
    as [req|e] eqn:Hreq; cbn [orPanic bind Do run fst].
  2:{ split; [|intros; congruence].
      split; [discriminate|]. by intros (? & ? & ? & ? & _). }
  destruct (serve _ s) as [[resp|e] s'] eqn:Hs;
    cbn [orPanic bind run fst].
  2:{ split; [|intros; congruence].
      split; [discriminate|]. intros (? & ? & ? & [= <-] & Hs' & _).
      congruence. }
  destruct (Z.ltb_spec (StatusCode resp) 500) as [Hlt|Hge];
    cbn [run fst].
  - split; [|intros req0 resp0 s0 [= <-] Hs0 _; congruence].
    split; [discriminate|]. intros (? & ? & ? & [= <-] & Hs' & Hst).
    rewrite Hs in Hs'. injection Hs' as <- <-. lia.
  - split.
    + split; [intros _|done]. by exists req, resp, s'.
    + intros req0 resp0 s0 [= <-] Hs0 Hlt.
      rewrite Hs in Hs0. injection Hs0 as <- <-. lia.
Qed.

(** C10: when the POST to /bogus and the PUT to / are both answered with
    a readable body, rr-0001 fails exactly when one of the two bodies is
    HELLO, whatever the status codes of the two responses; it makes the
    PUT to / after the POST to /bogus has passed, and its diagnostic is
    the same for both. *)
Theorem rr_0001_fails_iff_body_is_HELLO (port : Z) (s s1 s2 : S)
    (req1 req2 : Request) (resp1 resp2 : Response) (b1 b2 : string) :
  NewRequest "POST" (localhost port "/bogus") "hello" = Ok req1 ->
  serve (Header_Set "Content-Type" "text/plain" req1) s = (Ok resp1, s1) ->
  Body resp1 = Ok b1 ->
  NewRequest "PUT" (localhost port "/") "hello" = Ok req2 ->
  serve (Header_Set "Content-Type" "text/plain" req2) s1 = (Ok resp2, s2) ->
  Body resp2 = Ok b2 ->
  (panicked (run serve (T_rr_0001 NewRequest port) s).1 <->
   b1 = "HELLO" \/ b2 = "HELLO") /\
  ((run serve (T_rr_0001 NewRequest port) s).1 = Completed tt <->
   b1 <> "HELLO" /\ b2 <> "HELLO") /\
  (panicked (run serve (T_rr_0001 NewRequest port) s).1 ->
   (run serve (T_rr_0001 NewRequest port) s).1
     = Panicked (PanicStr only_on_root)) /\
  (b1 <> "HELLO" ->
   sent serve (T_rr_0001 NewRequest port) s =
   [Header_Set "Content-Type" "text/plain" req1;
    Header_Set "Content-Type" "text/plain" req2]).
Proof.
  intros Hreq1 Hs1 Hb1 Hreq2 Hs2 Hb2.
  unfold T_rr_0001, Post, panicked. rewrite Hreq1.
  cbn [orPanic bind Do run sent fst]. rewrite Hs1.
  cbn [orPanic bind run sent fst]. rewrite Hb1.
  cbn [orPanic bind run sent fst].
  destruct (String.eqb_spec "HELLO" b1) as [<-|Hne1];
    cbn [orPanic bind run sent fst].
  { split; [split; [by left|by eexists]|].
    split; [split; [discriminate|by intros []]|]. by split. }
  rewrite Hreq2. cbn [orPanic bind Do run sent fst]. rewrite Hs2.
  cbn [orPanic bind run sent fst]. rewrite Hb2.
  cbn [orPanic bind run sent fst].
  destruct (String.eqb_spec "HELLO" b2) as [<-|Hne2]; cbn [run sent fst].
  - split; [split; [by right|by eexists]|].
    split; [split; [discriminate|by intros []]|]. by split.
  - split; [split; [by intros [v [=]]|intros [|]; congruence]|].
    split; [split; [intros _; split; congruence|done]|].
    split; [by intros [v [=]]|done].
Qed.
End Service.

(** The service [echo] answers /bogus and PUT with status 200 and the body
    hello, which is not HELLO: rr-0001 passes. *)
Lemma rr_0001_on_echo :
  (panicked (run echo (T_rr_0001 newRequest 8080) tt).1 <->
   "hello" = "HELLO" \/ "hello" = "HELLO") /\
  ((run echo (T_rr_0001 newRequest 8080) tt).1 = Completed tt <->
   "hello" <> "HELLO" /\ "hello" <> "HELLO") /\
  (panicked (run echo (T_rr_0001 newRequest 8080) tt).1 ->
   (run echo (T_rr_0001 newRequest 8080) tt).1
     = Panicked (PanicStr only_on_root)) /\
  ("hello" <> "HELLO" ->
   sent echo (T_rr_0001 newRequest 8080) tt =
   [Header_Set "Content-Type" "text/plain"
      {| Method := "POST"; URL := localhost 8080 "/bogus";
         ReqHeader := ∅; ReqBody := "hello" |};
    Header_Set "Content-Type" "text/plain"
      {| Method := "PUT"; URL := localhost 8080 "/";
         ReqHeader := ∅; ReqBody := "hello" |}]).
Proof.
  eapply (rr_0001_fails_iff_body_is_HELLO newRequest echo 8080 tt tt tt);
    reflexivity.
Defined.

Example rr_0001_passes_on_upper :
  (run (upper 8080) (T_rr_0001 newRequest 8080) tt).1 = Completed tt.
Proof. vm_compute. reflexivity. Qed.

Example rr_0002_passes_on_upper :
  (run (upper 8080) (T_rr_0002 newRequest parseMediaType 8080) tt).1
  = Completed tt.
Proof. vm_compute. reflexivity. Qed.

Example rr_0002_fails_on_echo :
  (run echo (T_rr_0002 newRequest parseMediaType 8080) tt).1
  = Panicked (PanicStr "Expected result as text/plain HELLO, got hello").
Proof. vm_compute. reflexivity. Qed.

Example rr_0004_passes_on_upper :
  (run (upper 8080) (T_rr_0004 newRequest 8080) tt).1 = Completed tt.
Proof. vm_compute. reflexivity. Qed.

Example rr_0004_fails_on_not_found :
  (run not_found (T_rr_0004 newRequest 8080) tt).1
  = Panicked (PanicStr "Expected 5xx http code, got 404").
Proof. vm_compute. reflexivity. Qed.


End CaseFacts.

(** ** The suite and its report *)

Module SuiteFacts.
Import Report Fixtures.

Section Library.
Variable NewRequest : string -> string -> string -> result Http.Request.
Variable ParseMediaType : string -> result (string * gmap string string).

(** X16: the literal of the suite rr has the five cases rr-0001 to rr-0005,
    in this order of declaration, and their names are pairwise distinct. *)
Theorem rr_case_names_distinct :
  Suite.Name (Request_reply NewRequest ParseMediaType) = "rr" /\
  map Name (Suite.Cases (Request_reply NewRequest ParseMediaType))
    = ["rr-0001"; "rr-0002"; "rr-0003"; "rr-0004"; "rr-0005"] /\
  NoDup (map Name (Suite.Cases (Request_reply NewRequest ParseMediaType))).
Proof.
  split; [reflexivity|]. split; [reflexivity|].
  change (map Name (Suite.Cases (Request_reply NewRequest ParseMediaType)))
    with ["rr-0001"; "rr-0002"; "rr-0003"; "rr-0004"; "rr-0005"].
  apply (bool_decide_unpack _). by vm_compute.
Qed.

Lemma overall_cases (outcomes : list CaseOutcome) :
  overall outcomes = Failed \/ overall outcomes = Passed.
Proof.
  unfold overall. destruct (existsb mandatory_failure outcomes); auto.
Qed.

(** C6: the derived overall status is Failed exactly when some outcome is
    that of a mandatory case and is Failed; for the suite rr, whose cases
    rr-0003 and rr-0005 are the optional ones, it is Failed exactly when
    rr-0001, rr-0002 or rr-0004 failed, whatever the outcomes of rr-0003
    and rr-0005; otherwise it is Passed. *)
Theorem overall_failed_iff_mandatory_case_failed :
  (forall outcomes,
     overall outcomes = Failed <->
     exists o, In o outcomes /\ optional o = false /\ status o = Failed) /\
  map Optional (Suite.Cases (Request_reply NewRequest ParseMediaType))
    = [false; false; true; false; true] /\
  (forall verdict,
     overall (report (Request_reply NewRequest ParseMediaType) verdict)
       = Failed <->
     verdict "rr-0001" = Failed \/ verdict "rr-0002" = Failed \/
     verdict "rr-0004" = Failed) /\
  (forall verdict,
     overall (report (Request_reply NewRequest ParseMediaType) verdict)
       <> Failed ->
     overall (report (Request_reply NewRequest ParseMediaType) verdict)
       = Passed).
Proof.
  split; [|split; [reflexivity|split]].
  - intros outcomes. unfold overall.
    destruct (existsb mandatory_failure outcomes) eqn:Hex.
    + apply existsb_exists in Hex as (o & Hin & Ho).
      unfold mandatory_failure in Ho.
      apply andb_prop in Ho as [Hopt Hst].
      split; [intros _|done]. exists o.
      split; [done|]. split; [by destruct (optional o)|].
      by destruct (status o).
    + split; [discriminate|]. intros (o & Hin & Hopt & Hst).
      assert (existsb mandatory_failure outcomes = true) as Htrue.
      { apply existsb_exists. exists o. split; [done|].
        unfold mandatory_failure. by rewrite Hopt, Hst. }
      congruence.
  - intros verdict. unfold overall, report.
    cbn [Suite.Cases Request_reply map outcome_of Name Optional existsb
         mandatory_failure optional status negb andb orb].
    destruct (verdict "rr-0001"), (verdict "rr-0002"),
      (verdict "rr-0004"); cbn; intuition discriminate.
  - intros verdict Hne.
    by destruct (overall_cases
                   (report (Request_reply NewRequest ParseMediaType) verdict)).
Qed.
End Library.

Example optional_failures_pass :
  overall (report (Request_reply newRequest parseMediaType)
             (fun n => if String.eqb n "rr-0003" || String.eqb n "rr-0005"
                       then Failed else Passed))
  = Passed.
Proof. reflexivity. Qed.

Example mandatory_failure_fails :
  overall (report (Request_reply newRequest parseMediaType)
             (fun n => if String.eqb n "rr-0004" then Failed else Passed))
  = Failed.
Proof. reflexivity. Qed.

End SuiteFacts.

(** ** The verification procedures: status checks, errors, requests sent *)

Module CaseCoverage.
Import Http Checks Fixtures Faults CaseFacts.

Section Service.
Variable NewRequest : string -> string -> string -> result Request.
Variable ParseMediaType : string -> result (string * gmap string string).
Context {S : Type} (serve : Request -> S -> result Response * S).

Lemma sent_bind {A B} (p : Proc A) (f : A -> Proc B) (s : S) :
  sent serve (bind p f) s =
  sent serve p s ++
  match run serve p s with
  | (Completed a, s') => sent serve (f a) s'
  | (Panicked _, _) => []
  end.
Proof.
  revert s. induction p as [a|v|req k IH]; intros s; cbn [bind run sent];
    try reflexivity.
  destruct (serve req s) as [r s']. cbn [app]. f_equal. apply IH.
Qed.

(** X1: rr-0003 sends one POST to / with Content-Type bogus/content-type
    and completes normally exactly when it is answered with status 415;
    any other status gives the panic that names it.  The body of the
    response is not read. *)
Theorem rr_0003_completes_iff_status_415 (port : Z) (s : S) :
  ((run serve (T_rr_0003 NewRequest port) s).1 = Completed tt <->
   exists req resp s',
     NewRequest "POST" (localhost port "/") "hello" = Ok req /\
     serve (with_headers "bogus/content-type" "text/plain" req) s
       = (Ok resp, s') /\
     StatusCode resp = 415) /\
  (forall req resp s',
     NewRequest "POST" (localhost port "/") "hello" = Ok req ->
     serve (with_headers "bogus/content-type" "text/plain" req) s
       = (Ok resp, s') ->
     StatusCode resp <> 415 ->
     (run serve (T_rr_0003 NewRequest port) s).1
       = Panicked (PanicStr ("Expected 415 http code, got "
                             +:+ fmt_d (StatusCode resp)))).
Proof.
  unfold T_rr_0003, with_headers, StatusUnsupportedMediaType.
  destruct (NewRequest "POST" (localhost port "/") "hello")
    as [req|e] eqn:Hreq; cbn [orPanic bind Do run fst].
  2:{ split; [|intros; congruence].
      split; [discriminate|]. by intros (? & ? & ? & ? & _). }
  destruct (serve _ s) as [[resp|e] s'] eqn:Hs; cbn [orPanic bind run fst].
  2:{ split; [|intros; congruence].
      split; [discriminate|]. intros (? & ? & ? & [= <-] & Hs' & _).
      congruence. }
  destruct (Z.eqb_spec (StatusCode resp) 415) as [Heq|Hne];
    cbn [negb run fst].
  - split.
    + split; [intros _|done]. by exists req, resp, s'.
    + intros req0 resp0 s0 [= <-] Hs0 Hne.
      rewrite Hs in Hs0. by injection Hs0 as <- <-.
  - split; [|intros req0 resp0 s0 [= <-] Hs0 _; congruence].
    split; [discriminate|]. intros (? & ? & ? & [= <-] & Hs' & Hst).
    rewrite Hs in Hs'. by injection Hs' as <- <-.
Qed.

(** X2: rr-0005 sends one POST to / with Accept not/gonna-happen and
    completes normally exactly when it is answered with status 406; any
    other status gives the panic that names it. *)
Theorem rr_0005_completes_iff_status_406 (port : Z) (s : S) :
  ((run serve (T_rr_0005 NewRequest port) s).1 = Completed tt <->
   exists req resp s',
     NewRequest "POST" (localhost port "/") "hello" = Ok req /\
     serve (with_headers "text/plain" "not/gonna-happen" req) s
       = (Ok resp, s') /\
     StatusCode resp = 406) /\
  (forall req resp s',
     NewRequest "POST" (localhost port "/") "hello" = Ok req ->
     serve (with_headers "text/plain" "not/gonna-happen" req) s
       = (Ok resp, s') ->
     StatusCode resp <> 406 ->
     (run serve (T_rr_0005 NewRequest port) s).1
       = Panicked (PanicStr ("Expected 406 http code, got "
                             +:+ fmt_d (StatusCode resp)))).
Proof.
  unfold T_rr_0005, with_headers, StatusNotAcceptable.
  destruct (NewRequest "POST" (localhost port "/") "hello")
    as [req|e] eqn:Hreq; cbn [orPanic bind Do run fst].
  2:{ split; [|intros; congruence].
      split; [discriminate|]. by intros (? & ? & ? & ? & _). }
  destruct (serve _ s) as [[resp|e] s'] eqn:Hs; cbn [orPanic bind run fst].
  2:{ split; [|intros; congruence].
      split; [discriminate|]. intros (? & ? & ? & [= <-] & Hs' & _).
      congruence. }
  destruct (Z.eqb_spec (StatusCode resp) 406) as [Heq|Hne];
    cbn [negb run fst].
  - split.
    + split; [intros _|done]. by exists req, resp, s'.
    + intros req0 resp0 s0 [= <-] Hs0 Hne.
      rewrite Hs in Hs0. by injection Hs0 as <- <-.
  - split; [|intros req0 resp0 s0 [= <-] Hs0 _; congruence].
    split; [discriminate|]. intros (? & ? & ? & [= <-] & Hs' & Hst).
    rewrite Hs in Hs'. by injection Hs' as <- <-.
Qed.

(** X3: rr-0001 completes normally exactly when the POST to /bogus is
    built, answered and its body read and different from HELLO, and the
    PUT to / is then built, answered and its body read and different from
    HELLO: an exchange that fails (no response, or a body that cannot be
    read) makes the case fail like a HELLO body does. *)
Theorem rr_0001_completes_iff (port : Z) (s : S) :
  (run serve (T_rr_0001 NewRequest port) s).1 = Completed tt <->
  exists req1 resp1 s1 b1 req2 resp2 s2 b2,
    NewRequest "POST" (localhost port "/bogus") "hello" = Ok req1 /\
    serve (Header_Set "Content-Type" "text/plain" req1) s = (Ok resp1, s1) /\
    Body resp1 = Ok b1 /\ b1 <> "HELLO" /\
    NewRequest "PUT" (localhost port "/") "hello" = Ok req2 /\
    serve (Header_Set "Content-Type" "text/plain" req2) s1 = (Ok resp2, s2) /\
    Body resp2 = Ok b2 /\ b2 <> "HELLO".
Proof.
  unfold T_rr_0001, Post.
  destruct (NewRequest "POST" (localhost port "/bogus") "hello")
    as [req1|e] eqn:Hreq1; cbn [orPanic bind Do run fst].
  2:{ split; [discriminate|].
      by intros (? & ? & ? & ? & ? & ? & ? & ? & ? & _). }
  destruct (serve _ s) as [[resp1|e] s1] eqn:Hs1; cbn [orPanic bind run fst].
  2:{ split; [discriminate|].
      intros (? & ? & ? & ? & ? & ? & ? & ? & [= <-] & Hs & _). congruence. }
  destruct (Body resp1) as [b1|e] eqn:Hb1; cbn [orPanic bind run fst].
  2:{ split; [discriminate|].
      intros (? & ? & ? & ? & ? & ? & ? & ? & [= <-] & Hs & Hb & _).
      congruence. }
  destruct (String.eqb_spec "HELLO" b1) as [<-|Hne1];
    cbn [orPanic bind run fst].
  { split; [discriminate|].
    intros (? & ? & ? & ? & ? & ? & ? & ? & [= <-] & Hs & Hb & Hne & _).
    congruence. }
  destruct (NewRequest "PUT" (localhost port "/") "hello")
    as [req2|e] eqn:Hreq2; cbn [orPanic bind Do run fst].
  2:{ split; [discriminate|].
      by intros (? & ? & ? & ? & ? & ? & ? & ? & _ & _ & _ & _ & ? & _). }
  destruct (serve _ s1) as [[resp2|e] s2] eqn:Hs2;
    cbn [orPanic bind run fst].
  2:{ split; [discriminate|].
      intros (? & ? & ? & ? & ? & ? & ? & ? & [= <-] & Hs & _ & _
              & [= <-] & Hs' & _).
      congruence. }
  destruct (Body resp2) as [b2|e] eqn:Hb2; cbn [orPanic bind run fst].
  2:{ split; [discriminate|].
      intros (? & ? & ? & ? & ? & ? & ? & ? & [= <-] & Hs & _ & _
              & [= <-] & Hs' & Hb & _).
      congruence. }
  destruct (String.eqb_spec "HELLO" b2) as [<-|Hne2]; cbn [run fst].
  - split; [discriminate|].
    intros (? & ? & ? & ? & ? & ? & ? & ? & [= <-] & Hs & _ & _
            & [= <-] & Hs' & Hb & Hne).
    congruence.
  - split; [intros _|done].
    exists req1, resp1, s1, b1, req2, resp2, s2, b2.
    repeat split; congruence.
Qed.

Lemma Header_Set_same (key value : string) (req : Request) :
  ReqHeader (Header_Set key value req) !! key = Some [value].
Proof. unfold Header_Set. cbn [ReqHeader]. apply lookup_insert_eq. Qed.

Lemma Header_Set_other (key key' value : string) (req : Request) :
  key <> key' ->
  ReqHeader (Header_Set key value req) !! key' = ReqHeader req !! key'.
Proof.
  intros Hne. unfold Header_Set. cbn [ReqHeader]. by apply lookup_insert_ne.
Qed.

(** One step of a run: the answer of the request constructor, of the
    service, of the body reader, or of a test. *)
Ltac exchange :=
  cbn [orPanic bind Do run sent fst snd length app negb];
  match goal with
  | |- context [NewRequest ?m ?u ?b] => destruct (NewRequest m u b)
  | |- context [serve ?r ?s] => destruct (serve r s) as [[?|?] ?]
  | |- context [Body ?r] => destruct (Body r)
  | |- context [check_negotiated ParseMediaType ?b ?t ?d ?r ?x] =>
      destruct (check_negotiated_cases ParseMediaType b t d r x)
        as [(-> & _)|((? & ->) & _)]
  | |- context [if ?c then _ else _] => destruct c
  end.



(** X6: whatever the service answers, rr-0001 and rr-0002 send at most two
    requests and rr-0003, rr-0004 and rr-0005 at most one. *)
Theorem cases_request_budget (port : Z) (s : S) :
  (length (sent serve (T_rr_0001 NewRequest port) s) <= 2)%nat /\
  (length (sent serve (T_rr_0002 NewRequest ParseMediaType port) s) <= 2)%nat /\
  (length (sent serve (T_rr_0003 NewRequest port) s) <= 1)%nat /\
  (length (sent serve (T_rr_0004 NewRequest port) s) <= 1)%nat /\
  (length (sent serve (T_rr_0005 NewRequest port) s) <= 1)%nat.
Proof.
  unfold T_rr_0001, T_rr_0002, T_rr_0003, T_rr_0004, T_rr_0005, Post.
  repeat split; repeat exchange;
    cbn [orPanic bind Do run sent fst snd length app negb]; lia.
Qed.

(** X7: every request a case of the suite sends carries exactly one
    Content-Type value, and every request of the cases after rr-0001
    exactly one Accept value, whatever headers the constructor put in. *)
Theorem cases_requests_carry_single_headers (port : Z) (s : S) :
  Forall (fun tc =>
            Forall (fun req => exists v,
                      ReqHeader req !! "Content-Type" = Some [v])
                   (sent serve (T tc port) s))
         (Suite.Cases (Request_reply NewRequest ParseMediaType)) /\
  Forall (fun tc =>
            Forall (fun req => exists v, ReqHeader req !! "Accept" = Some [v])
                   (sent serve (T tc port) s))
         (tail (Suite.Cases (Request_reply NewRequest ParseMediaType))).
Proof.
  split; repeat apply List.Forall_cons; try apply List.Forall_nil; cbn [T];
    unfold T_rr_0001, T_rr_0002, T_rr_0003, T_rr_0004, T_rr_0005, Post;
    repeat exchange;
    cbn [orPanic bind Do run sent fst snd length app negb];
    repeat apply List.Forall_cons; try apply List.Forall_nil;
    eexists;
    first [ apply Header_Set_same
          | rewrite Header_Set_other by discriminate;
            apply Header_Set_same ].
Qed.

(** X8: rr-0002 insists on a single Content-Type value: a first response
    with status 200 and the body HELLO whose Content-Type header is missing
    or given more than once makes the case panic with the diagnostic that
    no Content-Type is set, and the second request is not sent. *)
Theorem rr_0002_needs_single_content_type (port : Z) (s s1 : S)
    (req : Request) (resp : Response) :
  NewRequest "POST" (localhost port "/") "hello" = Ok req ->
  serve (with_headers "text/plain" "text/plain" req) s = (Ok resp, s1) ->
  StatusCode resp = 200 ->
  Body resp = Ok "HELLO" ->
  length (Header_index (Header resp) "Content-Type") <> 1%nat ->
  run serve (T_rr_0002 NewRequest ParseMediaType port) s
    = (Panicked (PanicStr "No Content-Type set on response"), s1) /\
  length (sent serve (T_rr_0002 NewRequest ParseMediaType port) s) = 1%nat.
Proof.
  intros Hreq Hs Hst Hb Hlen.
  unfold T_rr_0002, with_headers in *. rewrite Hreq.
  cbn [orPanic bind Do run sent fst]. rewrite Hs.
  cbn [orPanic bind run sent fst]. rewrite Hb.
  cbn [orPanic bind run sent fst].
  assert (check_negotiated ParseMediaType "HELLO" "text/plain"
            "Expected result as text/plain HELLO, got " resp "HELLO"
          = Panic (PanicStr "No Content-Type set on response")) as ->.
  { unfold check_negotiated, StatusOK, CanonicalHeaderKey_ContentType.
    rewrite Hst. cbn [Z.eqb Pos.eqb negb String.eqb Ascii.eqb Bool.eqb andb].
    by destruct (Header_index (Header resp) "Content-Type") as [|? [|? ?]]. }
  by cbn [bind run sent length].
Qed.

(** X9: rr-0002 sends its second request exactly when the first exchange
    passed all its checks. *)
Theorem rr_0002_second_request_iff_first_passed (port : Z) (s : S) :
  (1 < length (sent serve (T_rr_0002 NewRequest ParseMediaType port) s))%nat
  <->
  exists req resp1 s1,
    NewRequest "POST" (localhost port "/") "hello" = Ok req /\
    serve (with_headers "text/plain" "text/plain" req) s = (Ok resp1, s1) /\
    negotiated ParseMediaType "HELLO" "text/plain" resp1.
Proof.
  unfold T_rr_0002, with_headers, negotiated.
  destruct (NewRequest "POST" (localhost port "/") "hello")
    as [req|e] eqn:Hreq; cbn [orPanic bind Do run sent fst length].
  2:{ split; [lia|]. by intros (? & ? & ? & ? & _). }
  destruct (serve _ s) as [[resp1|e1] s1] eqn:Hs1;
    cbn [orPanic bind run sent fst length].
  2:{ split; [lia|]. intros (? & ? & ? & [= <-] & Hs & _). congruence. }
  destruct (Body resp1) as [b1|e1] eqn:Hb1;
    cbn [orPanic bind run sent fst length].
  2:{ split; [lia|].
      intros (? & ? & ? & [= <-] & Hs & _ & Hb & _). congruence. }
  destruct (check_negotiated_cases ParseMediaType "HELLO" "text/plain"
              "Expected result as text/plain HELLO, got " resp1 b1)
    as [(-> & Hst1 & -> & Hct1)|((v & ->) & Hnot)];
    cbn [orPanic bind run sent fst length].
  - split; [intros _|].
    + by exists req, resp1, s1.
    + intros _. destruct (serve _ s1) as [r2 s2]. cbn [length]. lia.
  - split; [lia|]. intros (? & ? & ? & [= <-] & Hs & Hst & Hb & Hct).
    rewrite Hs1 in Hs. injection Hs as <- <-. exfalso. apply Hnot.
    split; [done|]. split; [congruence|done].
Qed.

End Service.



(** Two Content-Type values, both text/plain: rr-0002 fails. *)
Lemma rr_0002_on_twice_typed :
  run twice_typed (T_rr_0002 newRequest parseMediaType 8080) tt
    = (Panicked (PanicStr "No Content-Type set on response"), tt) /\
  length (sent twice_typed (T_rr_0002 newRequest parseMediaType 8080) tt)
    = 1%nat.
Proof.
  eapply (rr_0002_needs_single_content_type newRequest parseMediaType
            twice_typed 8080 tt tt); try reflexivity.
  vm_compute. lia.
Defined.


End CaseCoverage.

(** ** The default setup strategy: results, engine calls, time slept *)

Module SetupCoverage.
Import Docker Probe ProbeFacts SetupFacts Trace Fixtures Faults.

Lemma engine_calls_app (tr1 tr2 : list Event) :
  engine_calls (tr1 ++ tr2) = engine_calls tr1 ++ engine_calls tr2.
Proof. apply List.filter_app. Qed.

Lemma engine_calls_attempts (h : Host) (hp : Z) (k0 : nat) (l : list nat) :
  engine_calls (flat_map (failed_attempt h hp k0) l) = [].
Proof.
  induction l as [|j l IH]; [done|].
  cbn [flat_map]. by rewrite engine_calls_app, IH.
Qed.

Lemma total_sleep_app (tr1 tr2 : list Event) :
  total_sleep (tr1 ++ tr2) = total_sleep tr1 + total_sleep tr2.
Proof.
  induction tr1 as [|e tr1 IH]; [done|].
  cbn [app total_sleep]. destruct e; lia.
Qed.

(** The delays of the first [n] failed attempts add up to ten milliseconds
    times [2^n - 1]. *)
Lemma total_sleep_attempts (h : Host) (hp : Z) (k0 n : nat) :
  total_sleep (flat_map (failed_attempt h hp k0) (seq 0 n))
  = 10 * Millisecond * (2 ^ Z.of_nat n - 1).
Proof.
  induction n as [|n IH]; [done|].
  rewrite seq_S, flat_map_app, total_sleep_app, IH.
  cbn [flat_map failed_attempt app total_sleep plus]. unfold backoff.
  rewrite Nat2Z.inj_succ, Z.pow_succ_r by lia. lia.
Qed.

Lemma teardown_attempts (h : Host) (hp : Z) (k0 : nat) (l : list nat) :
  existsb is_teardown (flat_map (failed_attempt h hp k0) l) = false.
Proof.
  induction l as [|j l IH]; [done|].
  cbn [flat_map]. by rewrite existsb_app, IH.
Qed.

(** The events of the probe loop that are attempts are attempts on the
    allocated port. *)
Lemma attempts_dial_allocated_port (h : Host) (hp : Z) (k0 : nat)
    (l : list nat) :
  Forall (fun e => match e with
                   | Dialed network addr _ =>
                       network = "tcp" /\ addr = "localhost:" +:+ fmt_d hp
                   | _ => True
                   end)
         (flat_map (failed_attempt h hp k0) l).
Proof.
  induction l as [|j l IH]; [apply List.Forall_nil|].
  cbn [flat_map failed_attempt app].
  apply List.Forall_cons; [done|]. by apply List.Forall_cons.
Qed.

(** X10: the setup strategy returns the handle [c] exactly when the pull
    succeeds, the allocated port is the handle's port, the container
    created for it gets the handle's id and starts, and one of the first
    ten connection attempts on that port succeeds. *)
Theorem setup_succeeds_iff (h : Host) (image : string) (r : Runner)
    (c : Container) :
  (exists tr, setUpContainerUsingPortEnvVar h image r = Some (Ok c, tr)) <->
  ImagePull (dockerClient r) image = None /\
  getFreePort h = Ok (hostPort c) /\
  ContainerCreate (dockerClient r)
    {| Image := image; ExposedPorts := {[ "4321" ]}; Env := ["PORT=4321"] |}
    {| PortBindings :=
         {[ "4321" := [{| HostIP := "0.0.0.0";
                          HostPort := fmt_d (hostPort c) |}] ]} |}
    = Ok (id c) /\
  ContainerStart (dockerClient r) (id c) = None /\
  exists n, (n < 10)%nat /\
            Dial h n "tcp" ("localhost:" +:+ fmt_d (hostPort c)) = None.
Proof.
  destruct (setUp_run h image r) as (res & tr & Heq & Hrun).
  split.
  - intros (tr' & Hsetup). rewrite Hsetup in Heq. injection Heq as <- <-.
    inversion Hrun as [ | | | | | hp cid evs Hp Hf Hc Hs Hloop ]; subst.
    cbn [id hostPort]. repeat split; try done.
    apply (loop_outcome_success_iff h hp 0 None). by rewrite Hloop.
  - intros (Hp & Hf & Hc & Hs & Hn).
    apply (loop_outcome_success_iff h (hostPort c) 0 None) in Hn.
    change (ContainerCreate (dockerClient r)
              (created_for_port image "4321" (hostPort c)).1
              (created_for_port image "4321" (hostPort c)).2 = Ok (id c))
      in Hc.
    exists tr. rewrite Heq. do 2 f_equal.
    inversion Hrun as [ e Hp' | e Hp' Hf' | hp e Hp' Hf' Hc'
                      | hp cid e Hp' Hf' Hc' Hs'
                      | hp cid e evs Hp' Hf' Hc' Hs' Hloop
                      | hp cid evs Hp' Hf' Hc' Hs' Hloop ]; subst;
      try congruence;
      rewrite Hf in Hf'; injection Hf' as <-;
      try congruence;
      rewrite Hc in Hc'; injection Hc' as <-;
      try congruence.
    + rewrite Hloop in Hn. discriminate Hn.
    + by destruct c.
Qed.

(** X11: the setup strategy calls the engine in the order pull, port
    allocation, create, start, each at most once, and stops at the first
    call that fails; it attempts a connection only after a successful
    start; and it never stops or removes a container. *)
Theorem setup_engine_calls (h : Host) (image : string) (r : Runner) :
  exists res tr,
    setUpContainerUsingPortEnvVar h image r = Some (res, tr) /\
    engine_calls tr = calls_until_failure h image r /\
    existsb is_teardown tr = false /\
    (dial_count tr = 0%nat \/ existsb is_started tr = true).
Proof.
  destruct (setUp_run h image r) as (res & tr & Heq & Hrun).
  exists res, tr. split; [exact Heq|].
  unfold calls_until_failure. cbv zeta.
  inversion Hrun as [ e Hp | e Hp Hf | hp e Hp Hf Hc | hp cid e Hp Hf Hc Hs
                    | hp cid e evs Hp Hf Hc Hs Hloop
                    | hp cid evs Hp Hf Hc Hs Hloop ]; subst;
    rewrite Hp; try rewrite Hf;
    try (change {| Image := image; ExposedPorts := {[ "4321" ]};
                   Env := ["PORT=4321"] |}
           with (created_for_port image "4321" hp).1;
         change {| PortBindings :=
                     {[ "4321" := [{| HostIP := "0.0.0.0";
                                      HostPort := fmt_d hp |}] ]} |}
           with (created_for_port image "4321" hp).2;
         rewrite Hc);
    try rewrite Hs;
    try (split; [reflexivity|split; [reflexivity|by left]]).
  - apply loop_outcome_facts in Hloop as (_ & _ & -> & _).
    rewrite engine_calls_app, engine_calls_attempts.
    rewrite existsb_app, teardown_attempts.
    split; [reflexivity|]. split; [reflexivity|]. by right.
  - apply loop_outcome_facts in Hloop as (_ & _ & n & _ & -> & _).
    rewrite !engine_calls_app, engine_calls_attempts.
    rewrite !existsb_app, teardown_attempts.
    split; [reflexivity|]. split; [reflexivity|]. by right.
Qed.

(** X12: the error the setup strategy returns is the error of the first
    step that fails: of the pull, of the port allocation, of the creation,
    of the start, or, when all ten connection attempts fail, of the tenth
    attempt. *)
Theorem setup_returns_first_error (h : Host) (image : string) (r : Runner)
    (e : error) (tr : list Event) :
  setUpContainerUsingPortEnvVar h image r = Some (Fail e, tr) ->
  ImagePull (dockerClient r) image = Some e \/
  ImagePull (dockerClient r) image = None /\
  (getFreePort h = Fail e \/
   exists hp,
     getFreePort h = Ok hp /\
     (ContainerCreate (dockerClient r)
        (created_for_port image "4321" hp).1
        (created_for_port image "4321" hp).2 = Fail e \/
      exists cid,
        ContainerCreate (dockerClient r)
          (created_for_port image "4321" hp).1
          (created_for_port image "4321" hp).2 = Ok cid /\
        (ContainerStart (dockerClient r) cid = Some e \/
         ContainerStart (dockerClient r) cid = None /\
         (forall n, (n < 10)%nat ->
                    Dial h n "tcp" (address hp) <> None) /\
         Dial h 9 "tcp" (address hp) = Some e))).
Proof.
  intros Hsetup.
  destruct (setUp_run h image r) as (res & tr' & Heq & Hrun).
  rewrite Hsetup in Heq. injection Heq as <- <-.
  inversion Hrun as [ e' Hp | e' Hp Hf | hp e' Hp Hf Hc
                    | hp cid e' Hp Hf Hc Hs
                    | hp cid e' evs Hp Hf Hc Hs Hloop | ]; subst.
  - by left.
  - right. split; [done|]. by left.
  - right. split; [done|]. right. exists hp. split; [done|]. by left.
  - right. split; [done|]. right. exists hp. split; [done|]. right.
    exists cid. split; [done|]. by left.
  - right. split; [done|]. right. exists hp. split; [done|]. right.
    exists cid. split; [done|]. right. split; [done|].
    assert ((loop_outcome h hp 0 0 10 None).1 <> None) as Hfail
      by (by rewrite Hloop).
    apply loop_outcome_facts in Hloop as (_ & _ & _ & H9 & _).
    split; [|done].
    intros n Hn Hdial. apply Hfail, loop_outcome_success_iff. by exists n.
Qed.

(** X13: the setup strategy sleeps at most 10.23 seconds in all.  When it
    returns the handle after the attempt numbered [n] from zero, it has
    made [n + 1] attempts and slept ten milliseconds times [2^n - 1] plus
    the settle delay; when it returns an error it has either made no
    attempt and not slept, or made ten attempts and slept 10.23 seconds. *)
Theorem setup_sleep_budget (h : Host) (image : string) (r : Runner) :
  exists res tr,
    setUpContainerUsingPortEnvVar h image r = Some (res, tr) /\
    0 <= total_sleep tr <= 10230 * Millisecond /\
    match res with
    | Ok _ =>
        exists n, (n < 10)%nat /\ dial_count tr = S n /\
                  total_sleep tr
                  = (10 * (2 ^ Z.of_nat n - 1) + 1000) * Millisecond
    | Fail _ =>
        (dial_count tr = 0%nat /\ total_sleep tr = 0) \/
        (dial_count tr = 10%nat /\ total_sleep tr = 10230 * Millisecond)
    end.
Proof.
  destruct (setUp_run h image r) as (res & tr & Heq & Hrun).
  exists res, tr. split; [exact Heq|].
  inversion Hrun as [ | | | | hp cid e evs _ _ _ _ Hloop
                    | hp cid evs _ _ _ _ Hloop ]; subst;
    try (split; [done|by left]).
  - apply loop_outcome_facts in Hloop as (_ & _ & -> & _).
    rewrite total_sleep_app, dial_count_app, total_sleep_attempts,
      failed_attempts_count, length_seq.
    change (total_sleep (started_prefix image hp cid)) with 0.
    change (dial_count (started_prefix image hp cid)) with 0%nat.
    split; [done|]. right. by split.
  - apply loop_outcome_facts in Hloop as (_ & _ & n & Hn & -> & _).
    rewrite !total_sleep_app, !dial_count_app, total_sleep_attempts,
      failed_attempts_count, length_seq.
    change (total_sleep (started_prefix image hp cid)) with 0.
    change (dial_count (started_prefix image hp cid)) with 0%nat.
    cbn [total_sleep dial_count List.filter is_dial length app].
    unfold settle, Millisecond.
    assert (1 <= 2 ^ Z.of_nat n <= 2 ^ 9) as Hpow.
    { split; [apply (Z.pow_le_mono_r 2 0); lia
             |apply Z.pow_le_mono_r; lia]. }
    change (2 ^ 9) with 512 in Hpow.
    split; [lia|]. exists n. split; [done|]. split; lia.
Qed.

(** X14: every connection attempt of the setup strategy is a TCP
    connection to localhost on the port that was allocated. *)
Theorem setup_dials_allocated_port (h : Host) (image : string) (r : Runner) :
  exists res tr,
    setUpContainerUsingPortEnvVar h image r = Some (res, tr) /\
    Forall (fun e => match e with
                     | Dialed network addr _ =>
                         network = "tcp" /\
                         exists hp, getFreePort h = Ok hp /\
                                    addr = "localhost:" +:+ fmt_d hp
                     | _ => True
                     end) tr.
Proof.
  destruct (setUp_run h image r) as (res & tr & Heq & Hrun).
  exists res, tr. split; [exact Heq|].
  assert (forall hp l k0,
            getFreePort h = Ok hp ->
            Forall (fun e => match e with
                             | Dialed network addr _ =>
                                 network = "tcp" /\
                                 exists hp, getFreePort h = Ok hp /\
                                            addr = "localhost:" +:+ fmt_d hp
                             | _ => True
                             end)
                   (flat_map (failed_attempt h hp k0) l)) as Hattempts.
  { intros hp l k0 Hf.
    eapply Forall_impl; [apply (attempts_dial_allocated_port h hp k0 l)|].
    intros [] He; try done. destruct He as [-> ->].
    split; [done|]. by exists hp. }
  inversion Hrun as [ | | | | hp cid e evs _ Hf _ _ Hloop
                    | hp cid evs _ Hf _ _ Hloop ]; subst;
    try (by repeat apply List.Forall_cons).
  - apply loop_outcome_facts in Hloop as (_ & _ & -> & _).
    apply Forall_app. split; [by repeat apply List.Forall_cons|].
    by apply Hattempts.
  - apply loop_outcome_facts in Hloop as (_ & _ & n & _ & -> & _).
    rewrite !Forall_app.
    split; [by repeat apply List.Forall_cons|].
    split; [split; [by apply Hattempts|]|by repeat apply List.Forall_cons].
    apply List.Forall_cons; [|apply List.Forall_nil].
    split; [done|]. by exists hp.
Qed.


(** An engine that cannot start the container: the setup returns the
    error of the start. *)
Lemma setup_on_start_fails :
  ImagePull (dockerClient start_fails) "upper"
    = Some (Err "port is already allocated") \/
  ImagePull (dockerClient start_fails) "upper" = None /\
  (getFreePort never_ready = Fail (Err "port is already allocated") \/
   exists hp,
     getFreePort never_ready = Ok hp /\
     (ContainerCreate (dockerClient start_fails)
        (created_for_port "upper" "4321" hp).1
        (created_for_port "upper" "4321" hp).2
        = Fail (Err "port is already allocated") \/
      exists cid,
        ContainerCreate (dockerClient start_fails)
          (created_for_port "upper" "4321" hp).1
          (created_for_port "upper" "4321" hp).2 = Ok cid /\
        (ContainerStart (dockerClient start_fails) cid
           = Some (Err "port is already allocated") \/
         ContainerStart (dockerClient start_fails) cid = None /\
         (forall n, (n < 10)%nat ->
                    Dial never_ready n "tcp" (address hp) <> None) /\
         Dial never_ready 9 "tcp" (address hp)
           = Some (Err "port is already allocated")))).
Proof.
  eapply (setup_returns_first_error never_ready "upper" start_fails).
  reflexivity.
Defined.

(** X15: when the setup strategy returns, the containers running are those
    it started: the one container whose start succeeded, whether or not the
    probe then succeeds, and none when an earlier step or the start
    fails. *)
Theorem setup_running_is_started (h : Host) (image : string) (r : Runner) :
  exists res tr,
    setUpContainerUsingPortEnvVar h image r = Some (res, tr) /\
    running tr =
    flat_map (fun e => match e with
                       | ContainerStarted cid None => [cid]
                       | _ => []
                       end)
             (calls_until_failure h image r) /\
    (length (running tr) <= 1)%nat /\
    (forall c, res = Ok c -> running tr = [id c]).
Proof.
  destruct (setUp_run h image r) as (res & tr & Heq & Hrun).
  exists res, tr. split; [exact Heq|].
  unfold calls_until_failure. cbv zeta.
  inversion Hrun as [ e Hp | e Hp Hf | hp e Hp Hf Hc | hp cid e Hp Hf Hc Hs
                    | hp cid e evs Hp Hf Hc Hs Hloop
                    | hp cid evs Hp Hf Hc Hs Hloop ]; subst;
    rewrite Hp; try rewrite Hf;
    try (change {| Image := image; ExposedPorts := {[ "4321" ]};
                   Env := ["PORT=4321"] |}
           with (created_for_port image "4321" hp).1;
         change {| PortBindings :=
                     {[ "4321" := [{| HostIP := "0.0.0.0";
                                      HostPort := fmt_d hp |}] ]} |}
           with (created_for_port image "4321" hp).2;
         rewrite Hc);
    try rewrite Hs;
    try (split; [reflexivity|split; [cbn; lia|discriminate]]).
  - apply loop_outcome_facts in Hloop as (_ & _ & -> & _).
    rewrite running_app_no_engine_event by apply attempts_no_engine_event.
    split; [reflexivity|]. split; [cbn; lia|discriminate].
  - apply loop_outcome_facts in Hloop as (_ & _ & n & _ & -> & _).
    rewrite !app_assoc.
    rewrite running_app_no_engine_event by reflexivity.
    rewrite running_app_no_engine_event by reflexivity.
    rewrite running_app_no_engine_event by apply attempts_no_engine_event.
    split; [reflexivity|]. split; [cbn; lia|]. by intros c [= <-].
Qed.


End SetupCoverage.
